(** * PrecisionMedTwin: the on-chain record lifecycle and the twin store

    A shallow embedding of [contracts/PrecisionMedTwin.sol] (module
    [PrecisionMedTwin]) and of the twin life cycle of
    [frontend/web/src/App.tsx] (module [App]), with the properties of the
    specification proved over them.

    Conventions.
    - [uint256] and [uint32] values are [N]; the contract does no
      arithmetic on them besides [1 + length] and [length - 1], whose
      checked behaviour is written out.
    - A Solidity [mapping] is a [gmap]; reading an absent key yields the
      zero value of the value type.
    - A call either returns a value and a new state or fails; a failed
      call leaves the state of before the call ([transact]).
    - The FHE library ([FHE.add], [FHE.mul], [FHE.asEuint32],
      [FHE.toBytes32], [FHE.requestDecryption], [FHE.checkSignatures]) and
      [abi.decode] are not part of the repository: they are parameters. *)

From Stdlib Require Import NArith ZArith Lia.
From Stdlib.Strings Require Byte.
From Stdlib.Strings Require Import Ascii String.
From stdpp Require Import gmap strings list fin_maps pretty sorting.

Set Default Proof Using "Type".

(** Closes a closed equation by evaluating its left-hand side. *)
Ltac by_eval :=
  lazymatch goal with
  | |- _ = ?r => vm_cast_no_check (@eq_refl _ r)
  end.

(** ** Calls that can fail *)

Inductive Failure :=
  | Revert (reason : string)     (* require(cond, reason) *)
  | Panic (code : N)             (* 0x32: index out of bounds, 0x11: overflow *)
  | ExternalRevert (who : string).

Inductive Result (S A : Type) :=
  | Ok (a : A) (s : S)
  | Fail (e : Failure).
Arguments Ok {S A} a s.
Arguments Fail {S A} e.

Definition M (S A : Type) : Type := S → Result S A.

Global Instance M_ret {S} : MRet (M S) := λ A a s, Ok a s.
Global Instance M_bind {S} : MBind (M S) := λ A B f m s,
  match m s with
  | Ok a s' => f a s'
  | Fail e => Fail e
  end.

Definition get {S} : M S S := λ s, Ok s s.
Definition modify {S} (f : S → S) : M S unit := λ s, Ok tt (f s).
Definition fail {S A} (e : Failure) : M S A := λ _, Fail e.

Definition require {S} (cond : bool) (reason : string) : M S unit :=
  if cond then mret tt else fail (Revert reason).

Definition PANIC_OVERFLOW : N := 17.
Definition PANIC_INDEX : N := 50.

(** [a[i]] on a memory or storage array: out of range panics. *)
Definition index {S A} (a : list A) (i : nat) : M S A :=
  match a !! i with
  | Some x => mret x
  | None => fail (Panic PANIC_INDEX)
  end.

(** [a[i] = x] on a memory array. *)
Definition assign {S A} (a : list A) (i : nat) (x : A) : M S (list A) :=
  if decide (i < length a) then mret (<[i := x]> a)
  else fail (Panic PANIC_INDEX).

(** [a - b] on unsigned integers, checked since Solidity 0.8. *)
Definition checked_sub {S} (a b : nat) : M S nat :=
  if decide (b ≤ a) then mret (a - b) else fail (Panic PANIC_OVERFLOW).

(** [for (uint i = lo; i < hi; i++) acc = body i acc]: the bound [hi] is
    read from an array whose length the body does not change. *)
Fixpoint for_iter {S A} (n i : nat) (body : nat → A → M S A) (acc : A)
  : M S A :=
  match n with
  | O => mret acc
  | Datatypes.S n' => acc' ← body i acc; for_iter n' (Datatypes.S i) body acc'
  end.

Definition for_range {S A} (lo hi : nat) (body : nat → A → M S A) (acc : A)
  : M S A :=
  for_iter (hi - lo) lo body acc.

(** The state a transaction leaves: a failed call changes nothing. *)
Definition transact {S A} (m : M S A) (s : S) : S :=
  match m s with
  | Ok _ s' => s'
  | Fail _ => s
  end.

(** ** The contract *)

Module PrecisionMedTwin.

Definition bytes32 : Type := N.
Definition bytes : Type := list Byte.byte.
Global Instance byte_eq_dec : EqDecision Byte.byte := Byte.byte_eq_dec.

(** The FHE library of the contract's imports: the handle type of an
    encrypted 32-bit integer, the homomorphic operations, and the
    decryption oracle, which keeps a storage of its own. *)
Class FHE := {
  euint32 : Type;
  euint32_zero : euint32;                 (* the value of an unset slot *)
  FHE_asEuint32 : N → euint32;
  FHE_add : euint32 → euint32 → euint32;
  FHE_mul : euint32 → euint32 → euint32;
  FHE_toBytes32 : euint32 → bytes32;
  FheStore : Type;
  selector : N;                           (* this.decryptSimulationResult.selector *)
  FHE_requestDecryption : FheStore → list bytes32 → N → N * FheStore;
  FHE_checkSignatures : FheStore → N → bytes → bytes → bool
}.

(** [abi.decode(cleartexts, (uint32[]))]; [None] when it reverts. *)
Class ABI := abi_decode_uint32s : bytes → option (list N).

Section Contract.

Context `{fhe : FHE, abi : ABI}.

Record EncryptedHealthData := mkEncryptedHealthData {
  patientId : N;
  genomicData : list euint32;
  cellularData : list euint32;
  organData : list euint32;
  biomarkers : list euint32;
  timestamp : N
}.

Record SimulationResult := mkSimulationResult {
  diseaseRiskScore : euint32;
  drugResponse : list euint32;
  isComplete : bool
}.

Record DecryptedResult := mkDecryptedResult {
  decDiseaseRiskScore : N;
  decDrugResponse : list N;
  isRevealed : bool
}.

Inductive Event :=
  | DataSubmitted (patient ts : N)
  | SimulationRequested (patient : N)
  | SimulationCompleted (patient : N)
  | ResultRevealed (patient : N).

Record State := mkState {
  patientData : gmap N EncryptedHealthData;
  simulationResults : gmap N SimulationResult;
  decryptedResults : gmap N DecryptedResult;
  genomicModelParams : list euint32;
  cellularModelParams : list euint32;
  organModelParams : list euint32;
  requestToPatientId : gmap N N;
  fheStore : FheStore;
  events : list Event
}.

(** Zero values of the structs, read at an unset key. *)
Definition zeroHealthData : EncryptedHealthData :=
  mkEncryptedHealthData 0 [] [] [] [] 0.
Definition zeroSimulationResult : SimulationResult :=
  mkSimulationResult euint32_zero [] false.
Definition zeroDecryptedResult : DecryptedResult :=
  mkDecryptedResult 0 [] false.

Definition patientData_at (st : State) (p : N) : EncryptedHealthData :=
  default zeroHealthData (patientData st !! p).
Definition simulationResults_at (st : State) (p : N) : SimulationResult :=
  default zeroSimulationResult (simulationResults st !! p).
Definition decryptedResults_at (st : State) (p : N) : DecryptedResult :=
  default zeroDecryptedResult (decryptedResults st !! p).
Definition requestToPatientId_at (st : State) (r : N) : N :=
  default 0%N (requestToPatientId st !! r).

(** Storage writes. *)
Definition set_patientData p v (st : State) : State :=
  mkState (<[p := v]> (patientData st)) (simulationResults st)
    (decryptedResults st) (genomicModelParams st) (cellularModelParams st)
    (organModelParams st) (requestToPatientId st) (fheStore st) (events st).
Definition set_simulationResults p v (st : State) : State :=
  mkState (patientData st) (<[p := v]> (simulationResults st))
    (decryptedResults st) (genomicModelParams st) (cellularModelParams st)
    (organModelParams st) (requestToPatientId st) (fheStore st) (events st).
Definition set_decryptedResults p v (st : State) : State :=
  mkState (patientData st) (simulationResults st)
    (<[p := v]> (decryptedResults st)) (genomicModelParams st)
    (cellularModelParams st) (organModelParams st) (requestToPatientId st)
    (fheStore st) (events st).
Definition set_genomicModelParams v (st : State) : State :=
  mkState (patientData st) (simulationResults st) (decryptedResults st)
    v (cellularModelParams st) (organModelParams st)
    (requestToPatientId st) (fheStore st) (events st).
Definition set_cellularModelParams v (st : State) : State :=
  mkState (patientData st) (simulationResults st) (decryptedResults st)
    (genomicModelParams st) v (organModelParams st)
    (requestToPatientId st) (fheStore st) (events st).
Definition set_organModelParams v (st : State) : State :=
  mkState (patientData st) (simulationResults st) (decryptedResults st)
    (genomicModelParams st) (cellularModelParams st) v
    (requestToPatientId st) (fheStore st) (events st).
Definition set_requestToPatientId r p (st : State) : State :=
  mkState (patientData st) (simulationResults st) (decryptedResults st)
    (genomicModelParams st) (cellularModelParams st) (organModelParams st)
    (<[r := p]> (requestToPatientId st)) (fheStore st) (events st).
Definition set_fheStore v (st : State) : State :=
  mkState (patientData st) (simulationResults st) (decryptedResults st)
    (genomicModelParams st) (cellularModelParams st) (organModelParams st)
    (requestToPatientId st) v (events st).
Definition emit (e : Event) : M State unit :=
  modify (λ st,
    mkState (patientData st) (simulationResults st) (decryptedResults st)
      (genomicModelParams st) (cellularModelParams st)
      (organModelParams st) (requestToPatientId st) (fheStore st)
      (events st ++ [e])).

(** Writes through the storage pointer [dResult = decryptedResults[p]]. *)
Definition dResult_set_diseaseRiskScore p (v : N) : M State unit :=
  modify (λ st, let d := decryptedResults_at st p in
    set_decryptedResults p
      (mkDecryptedResult v (decDrugResponse d) (isRevealed d)) st).
Definition dResult_set_drugResponse p (v : list N) : M State unit :=
  modify (λ st, let d := decryptedResults_at st p in
    set_decryptedResults p
      (mkDecryptedResult (decDiseaseRiskScore d) v (isRevealed d)) st).
Definition dResult_set_isRevealed p (v : bool) : M State unit :=
  modify (λ st, let d := decryptedResults_at st p in
    set_decryptedResults p
      (mkDecryptedResult (decDiseaseRiskScore d) (decDrugResponse d) v) st).
(** [dResult.drugResponse[i] = x], bounds-checked. *)
Definition dResult_assign_drugResponse p (i : nat) (x : N) : M State unit :=
  st ← get;
  a ← assign (decDrugResponse (decryptedResults_at st p)) i x;
  dResult_set_drugResponse p a.

(** *** Transactions *)

Definition submitHealthData (now : N) (p : N)
    (genomic cellular organ biomarkers : list euint32) : M State unit :=
  modify (set_patientData p
    (mkEncryptedHealthData p genomic cellular organ biomarkers now));;
  emit (DataSubmitted p now).

Definition setModelParameters (genomicParams cellularParams organParams
    : list euint32) : M State unit :=
  modify (set_genomicModelParams genomicParams);;
  modify (set_cellularModelParams cellularParams);;
  modify (set_organModelParams organParams).

Definition requestSimulation (p : N) : M State unit :=
  st ← get;
  let data := patientData_at st p in
  require (bool_decide (0 < timestamp data)%N) "Patient data not found";;
  emit (SimulationRequested p).

Definition storeSimulationResult (p : N) (diseaseRisk : euint32)
    (drugResponses : list euint32) : M State unit :=
  modify (set_simulationResults p
    (mkSimulationResult diseaseRisk drugResponses true));;
  modify (set_decryptedResults p (mkDecryptedResult 0 [] false));;
  emit (SimulationCompleted p).

(** The ciphertext array of [requestResultDecryption]: allocated at
    [1 + length], slot 0 the risk score, slot [i+1] drug response [i]. *)
Definition prepareCiphertexts (result : SimulationResult)
    : M State (list bytes32) :=
  let totalElements := 1 + length (drugResponse result) in
  let ciphertexts := replicate totalElements (0%N : bytes32) in
  ciphertexts ← assign ciphertexts 0
    (FHE_toBytes32 (diseaseRiskScore result));
  for_range 0 (length (drugResponse result))
    (λ i ciphertexts,
       x ← index (drugResponse result) i;
       assign ciphertexts (i + 1) (FHE_toBytes32 x))
    ciphertexts.

Definition requestResultDecryption (p : N) : M State unit :=
  st ← get;
  let result := simulationResults_at st p in
  require (isComplete result) "Simulation not complete";;
  require (negb (isRevealed (decryptedResults_at st p))) "Already revealed";;
  ciphertexts ← prepareCiphertexts result;
  st ← get;
  let '(reqId, fhe') :=
    FHE_requestDecryption (fheStore st) ciphertexts selector in
  modify (set_fheStore fhe');;
  modify (set_requestToPatientId reqId p).

Definition decryptSimulationResult (requestId : N)
    (cleartexts proof : bytes) : M State unit :=
  st ← get;
  let p := requestToPatientId_at st requestId in
  require (negb (bool_decide (p = 0%N))) "Invalid request";;
  (* [sResult = simulationResults[p]] is taken and never used *)
  let dResult := decryptedResults_at st p in
  require (negb (isRevealed dResult)) "Already revealed";;
  (if FHE_checkSignatures (fheStore st) requestId cleartexts proof
   then mret tt else fail (ExternalRevert "FHE.checkSignatures"));;
  results ← match abi_decode_uint32s cleartexts with
            | Some results => mret results
            | None => fail (ExternalRevert "abi.decode")
            end;
  r0 ← index results 0;
  dResult_set_diseaseRiskScore p r0;;
  n ← checked_sub (length results) 1;
  dResult_set_drugResponse p (replicate n 0%N);;
  for_range 1 (length results)
    (λ i _, x ← index results i;
            j ← checked_sub i 1;
            dResult_assign_drugResponse p j x)
    tt;;
  dResult_set_isRevealed p true;;
  emit (ResultRevealed p).

(** *** Views *)

Definition predictDiseaseRisk (p : N) : M State euint32 :=
  st ← get;
  let data := patientData_at st p in
  require (bool_decide (0 < timestamp data)%N) "Patient data not found";;
  let risk := FHE_asEuint32 0 in
  for_range 0 (length (genomicModelParams st))
    (λ i risk,
       if decide (i < length (genomicData data)) then
         a ← index (genomicModelParams st) i;
         b ← index (genomicData data) i;
         mret (FHE_add risk (FHE_mul a b))
       else mret risk)
    risk.

Definition predictDrugResponse (p : N) (drugIndex : N) : M State euint32 :=
  st ← get;
  let data := patientData_at st p in
  require (bool_decide (0 < timestamp data)%N) "Patient data not found";;
  let response := FHE_asEuint32 0 in
  (* Genomic contribution *)
  response ←
    for_range 0 (length (genomicModelParams st))
      (λ i response,
         if decide (i < length (genomicData data)) then
           a ← index (genomicModelParams st) i;
           b ← index (genomicData data) i;
           mret (FHE_add response (FHE_mul a b))
         else mret response)
      response;
  (* Biomarker contribution *)
  if decide (drugIndex < N.of_nat (length (biomarkers data)))%N then
    b ← index (biomarkers data) (N.to_nat drugIndex);
    mret (FHE_add response b)
  else mret response.

Definition getEncryptedHealthData (p : N)
    : M State (list euint32 * list euint32 * list euint32 * list euint32) :=
  st ← get;
  let data := patientData_at st p in
  require (bool_decide (0 < timestamp data)%N) "Patient data not found";;
  mret (genomicData data, cellularData data, organData data,
        biomarkers data).

Definition getEncryptedSimulationResult (p : N)
    : M State (euint32 * list euint32) :=
  st ← get;
  let r := simulationResults_at st p in
  require (isComplete r) "Simulation not complete";;
  mret (diseaseRiskScore r, drugResponse r).

Definition getDecryptedSimulationResult (p : N)
    : M State (N * list N * bool) :=
  st ← get;
  let r := decryptedResults_at st p in
  mret (decDiseaseRiskScore r, decDrugResponse r, isRevealed r).

Definition updateGenomicModel (newParams : list euint32) : M State unit :=
  modify (set_genomicModelParams newParams).
Definition updateCellularModel (newParams : list euint32) : M State unit :=
  modify (set_cellularModelParams newParams).
Definition updateOrganModel (newParams : list euint32) : M State unit :=
  modify (set_organModelParams newParams).

(** *** Transaction sequences *)

Inductive Call :=
  | SubmitHealthData (now p : N) (genomic cellular organ bio : list euint32)
  | SetModelParameters (g c o : list euint32)
  | RequestSimulation (p : N)
  | StoreSimulationResult (p : N) (risk : euint32) (drugs : list euint32)
  | RequestResultDecryption (p : N)
  | DecryptSimulationResult (requestId : N) (cleartexts proof : bytes)
  | UpdateGenomicModel (ps : list euint32)
  | UpdateCellularModel (ps : list euint32)
  | UpdateOrganModel (ps : list euint32).

Definition call (c : Call) : M State unit :=
  match c with
  | SubmitHealthData now p g c o b => submitHealthData now p g c o b
  | SetModelParameters g c o => setModelParameters g c o
  | RequestSimulation p => requestSimulation p
  | StoreSimulationResult p risk drugs => storeSimulationResult p risk drugs
  | RequestResultDecryption p => requestResultDecryption p
  | DecryptSimulationResult r cl pr => decryptSimulationResult r cl pr
  | UpdateGenomicModel ps => updateGenomicModel ps
  | UpdateCellularModel ps => updateCellularModel ps
  | UpdateOrganModel ps => updateOrganModel ps
  end.

Definition step (st : State) (c : Call) : State := transact (call c) st.

Definition run (cs : list Call) (st : State) : State := foldl step st cs.

(** The state at deployment: every mapping and array empty. *)
Definition deployed (fhe0 : FheStore) : State :=
  mkState ∅ ∅ ∅ [] [] [] ∅ fhe0 [].

Definition reachable (st : State) : Prop :=
  ∃ fhe0 cs, st = run cs (deployed fhe0).

(** The request id the oracle hands out when [requestResultDecryption p]
    is called in [st]. *)
Definition issuedId (st : State) (p : N) : option N :=
  match prepareCiphertexts (simulationResults_at st p) st with
  | Ok cts _ => Some (FHE_requestDecryption (fheStore st) cts selector).1
  | Fail _ => None
  end.

(** The request ids handed out along a sequence of calls. *)
Fixpoint issuedIds (cs : list Call) (st : State) : list N :=
  match cs with
  | [] => []
  | c :: cs' =>
      match c, call c st with
      | RequestResultDecryption p, Ok _ _ => option_list (issuedId st p)
      | _, _ => []
      end ++ issuedIds cs' (step st c)
  end.

Definition isStoreFor (p : N) (c : Call) : bool :=
  match c with
  | StoreSimulationResult q _ _ => bool_decide (q = p)
  | _ => false
  end.

(** *** The specification's words *)

(** The encrypted dot product: multiply position by position, add up
    from encrypted zero; [zip] stops at the shorter vector. *)
Definition encryptedDot (params data : list euint32) : euint32 :=
  foldl (λ acc ab, FHE_add acc (FHE_mul ab.1 ab.2))
        (FHE_asEuint32 0) (zip params data).

(** The state a successful decryption callback leaves for patient [p]
    when the cleartext decodes to [r0 :: rest]. *)
Definition revealed (p r0 : N) (rest : list N) (st : State) : State :=
  mkState (patientData st) (simulationResults st)
    (<[p := mkDecryptedResult r0 rest true]> (decryptedResults st))
    (genomicModelParams st) (cellularModelParams st) (organModelParams st)
    (requestToPatientId st) (fheStore st)
    (events st ++ [ResultRevealed p]).

(** The order in which the ciphertexts are flattened: the risk score
    first, then the drug responses as stored. *)
Definition flattened (r : SimulationResult) : list bytes32 :=
  FHE_toBytes32 (diseaseRiskScore r) :: (FHE_toBytes32 <$> drugResponse r).

End Contract.

End PrecisionMedTwin.

(** ** The twin store of the frontend

    [App.tsx] keeps every twin as a JSON blob under the key
    ["twin_" + id] of a key/value contract and the list of ids under
    ["twin_keys"]. The contract behind [getData]/[setData], [JSON],
    [ethers.toUtf8Bytes]/[toUtf8String] and [btoa] are parameters; a
    write that the user signs succeeds. *)

Module App.

#[local] Unset Elimination Schemes.
Inductive json :=
  | JNull
  | JBool (b : bool)
  | JNum (n : Z)
  | JStr (s : string)
  | JArr (l : list json)
  | JObj (fields : gmap string json).
#[local] Set Elimination Schemes.

Definition bytes : Type := list Byte.byte.

Class Platform := {
  JSON_stringify : json → string;
  JSON_parse : string → option json;        (* None: throws SyntaxError *)
  toUtf8Bytes : string → bytes;
  toUtf8String : bytes → option string;     (* None: throws *)
  btoa : string → string
}.

Record NewTwinData := mkNewTwinData {
  scale : string;
  description : string;
  healthData : string
}.

(** What a call reads from outside the store. *)
Record Env := mkEnv {
  provider : bool;             (* a wallet is connected *)
  contractWithSigner : bool;   (* getContractWithSigner() is not null *)
  account : string;
  Date_now : N;                (* milliseconds *)
  Math_random : string         (* Math.random().toString(36).substring(2, 9) *)
}.

Inductive Outcome :=
  | Done
  | Alerted                    (* "Please connect wallet first" *)
  | Thrown (message : string).

Section Frontend.

Context `{platform : Platform}.

Definition getData (key : string) (store : gmap string bytes) : bytes :=
  default [] (store !! key).

Definition setData (key : string) (value : bytes) (store : gmap string bytes)
  : gmap string bytes :=
  <[key := value]> store.

Definition encode (v : json) : bytes := toUtf8Bytes (JSON_stringify v).

Definition decode (b : bytes) : option json :=
  toUtf8String b ≫= JSON_parse.

Definition twinKey (twinId : string) : string := "twin_" +:+ twinId.

Definition newTwinJson (d : NewTwinData) : json :=
  JObj (<["healthData" := JStr (healthData d)]>
       (<["description" := JStr (description d)]>
       (<["scale" := JStr (scale d)]> ∅))).

Definition makeTwinId (env : Env) : string :=
  pretty (Date_now env) +:+ "-" +:+ Math_random env.

(** The object literal [twinData] of [submitTwin]. *)
Definition twinData (env : Env) (d : NewTwinData) : gmap string json :=
  <["status" := JStr "pending"]>
  (<["scale" := JStr (scale d)]>
  (<["owner" := JStr (account env)]>
  (<["timestamp" := JNum (Z.of_N (Date_now env / 1000))]>
  (<["data" := JStr ("FHE-" +:+ btoa (JSON_stringify (newTwinJson d)))]> ∅)))).

(** [keys.push(twinId)] on what [JSON.parse] gave: only an array has
    [push]. *)
Definition push (keys : json) (twinId : string) : option json :=
  match keys with
  | JArr l => Some (JArr (l ++ [JStr twinId]))
  | _ => None
  end.

Definition submitTwin (env : Env) (d : NewTwinData)
    (store : gmap string bytes) : gmap string bytes * Outcome :=
  if negb (provider env) then (store, Alerted)
  else if negb (contractWithSigner env)
  then (store, Thrown "Failed to get contract with signer")
  else
    let twinId := makeTwinId env in
    let store := setData (twinKey twinId) (encode (JObj (twinData env d)))
                   store in
    let keysBytes := getData "twin_keys" store in
    let keys :=
      if bool_decide (0 < length keysBytes)
      then default (JArr []) (decode keysBytes)
      else JArr [] in
    match push keys twinId with
    | Some keys => (setData "twin_keys" (encode keys) store, Done)
    | None => (store, Thrown "keys.push is not a function")
    end.

(** The own enumerable properties that [{...v}] copies. *)
Definition spread (v : json) : gmap string json :=
  match v with
  | JObj fields => fields
  | JArr l => list_to_map (imap (λ i x, (pretty i, x)) l)
  | JStr s =>
      list_to_map (imap (λ i c, (pretty i, JStr (String c EmptyString)))
                     (String.list_ascii_of_string s))
  | _ => ∅
  end.

Definition activateTwin (env : Env) (twinId : string)
    (store : gmap string bytes) : gmap string bytes * Outcome :=
  if negb (provider env) then (store, Alerted)
  else if negb (contractWithSigner env)
  then (store, Thrown "Failed to get contract with signer")
  else
    let twinBytes := getData (twinKey twinId) store in
    if bool_decide (length twinBytes = 0) then (store, Thrown "Twin not found")
    else
      match decode twinBytes with
      | None => (store, Thrown "JSON.parse")
      | Some twinData =>
          let updatedTwin :=
            JObj (<["status" := JStr "active"]> (spread twinData)) in
          (setData (twinKey twinId) (encode updatedTwin) store, Done)
      end.

End Frontend.

(** *** The listing

    What [loadTwins] keeps of a stored twin. The fields hold whatever
    [JSON.parse] gave: [None] is JavaScript's [undefined]. *)
Record DigitalTwin := mkDigitalTwin {
  id : json;
  encryptedData : option json;
  timestamp : option json;
  owner : option json;
  twinScale : option json;     (* the field [scale] *)
  status : json
}.

(** The language's own conversions and sort. *)
Class Runtime := {
  ToString : json → string;                 (* the coercion of a template literal *)
  toLowerCase : string → string;
  (* list.sort((a, b) => b.timestamp - a.timestamp) *)
  sortByTimestampDesc : list DigitalTwin → list DigitalTwin
}.

Record ReadEnv := mkReadEnv {
  contractReadOnly : bool;     (* getContractReadOnly() is not null *)
  isAvailable : bool           (* contract.isAvailable() *)
}.

(** [v.name] for the names the listing reads ([data], [timestamp],
    [owner], [scale], [status]), which no primitive and no array has:
    the outer [None] is the TypeError of reading a property of [null]. *)
Definition property (v : json) (name : string) : option (option json) :=
  match v with
  | JNull => None
  | JObj fields => Some (fields !! name)
  | _ => Some None
  end.

Definition truthy (v : json) : bool :=
  match v with
  | JNull => false
  | JBool b => b
  | JNum n => negb (bool_decide (n = 0%Z))
  | JStr s => negb (bool_decide (s = EmptyString))
  | JArr _ | JObj _ => true
  end.

(** [v || "pending"], with [v] possibly [undefined]. *)
Definition orPending (v : option json) : json :=
  match v with
  | Some v => if truthy v then v else JStr "pending"
  | None => JStr "pending"
  end.

(** The values [for (const key of keys)] runs through; [None] when
    [keys] is not iterable. *)
Definition iterate (keys : json) : option (list json) :=
  match keys with
  | JArr l => Some l
  | JStr s =>
      Some ((λ c, JStr (String c EmptyString))
              <$> String.list_ascii_of_string s)
  | _ => None
  end.

(** [v === s] for a string [s]. *)
Definition isString (v : json) (s : string) : bool :=
  match v with
  | JStr t => bool_decide (t = s)
  | _ => false
  end.


Section Listing.

Context `{platform : Platform, runtime : Runtime}.

Definition archiveTwin (env : Env) (twinId : string)
    (store : gmap string bytes) : gmap string bytes * Outcome :=
  if negb (provider env) then (store, Alerted)
  else if negb (contractWithSigner env)
  then (store, Thrown "Failed to get contract with signer")
  else
    let twinBytes := getData (twinKey twinId) store in
    if bool_decide (length twinBytes = 0) then (store, Thrown "Twin not found")
    else
      match decode twinBytes with
      | None => (store, Thrown "JSON.parse")
      | Some twinData =>
          let updatedTwin :=
            JObj (<["status" := JStr "archived"]> (spread twinData)) in
          (setData (twinKey twinId) (encode updatedTwin) store, Done)
      end.

(** The body of the loop of [loadTwins] for one key: the twin it pushes,
    or [None] when the blob is missing, does not parse, or parses to
    [null]. *)
Definition loadEntry (store : gmap string bytes) (key : json)
  : option DigitalTwin :=
  let twinBytes := getData (twinKey (ToString key)) store in
  if bool_decide (0 < length twinBytes) then
    twinData ← decode twinBytes;
    data ← property twinData "data";
    ts ← property twinData "timestamp";
    own ← property twinData "owner";
    sc ← property twinData "scale";
    st ← property twinData "status";
    Some (mkDigitalTwin key data ts own sc (orPending st))
  else None.

(** The new value of the [twins] state. *)
Definition loadTwins (env : ReadEnv) (store : gmap string bytes)
    (twins : list DigitalTwin) : list DigitalTwin :=
  if negb (contractReadOnly env) then twins
  else if negb (isAvailable env) then twins
  else
    let keysBytes := getData "twin_keys" store in
    let keys :=
      if bool_decide (0 < length keysBytes)
      then default (JArr []) (decode keysBytes)
      else JArr [] in
    match iterate keys with
    | None => twins
    | Some keys => sortByTimestampDesc (omap (loadEntry store) keys)
    end.

(** [twins.filter(t => t.status === s).length] *)
Definition countStatus (s : string) (twins : list DigitalTwin) : nat :=
  length (filter (λ t, isString (status t) s) twins).

Definition activeCount := countStatus "active".
Definition pendingCount := countStatus "pending".
Definition archivedCount := countStatus "archived".




(** [account.toLowerCase() === address.toLowerCase()] *)
Definition isOwner (account address : string) : bool :=
  bool_decide (toLowerCase account = toLowerCase address).

End Listing.

End App.

(** ** A plaintext instance of the library

    Handles are the 32-bit plaintexts themselves, the oracle numbers its
    requests from a counter, a proof is valid when it repeats the
    cleartext, and [abi.decode] reads the head offset, the length and
    the elements as 32-byte big-endian words. *)

Module Plain.
Import PrecisionMedTwin.

Definition wrap32 (n : N) : N := (n mod 2 ^ 32)%N.

Definition plainFHE : FHE := {|
  euint32 := N;
  euint32_zero := 0%N;
  FHE_asEuint32 := wrap32;
  FHE_add := λ a b, wrap32 (a + b);
  FHE_mul := λ a b, wrap32 (a * b);
  FHE_toBytes32 := λ a, a;
  FheStore := N;
  selector := 0%N;
  FHE_requestDecryption := λ counter _ _, (counter, (counter + 1)%N);
  FHE_checkSignatures := λ _ _ cl pr, bool_decide (pr = cl)
|}.

Definition word_of_bytes (bs : bytes) : N :=
  foldl (λ acc b, (acc * 256 + Byte.to_N b)%N) 0%N bs.

Fixpoint words (n : nat) (bs : bytes) : list N :=
  match n with
  | O => []
  | Datatypes.S n' => word_of_bytes (take 32 bs) :: words n' (drop 32 bs)
  end.

Definition decode_uint32s (bs : bytes) : option (list N) :=
  match words (length bs / 32) bs with
  | off :: len :: elems =>
      let xs := take (N.to_nat len) elems in
      if bool_decide (off = 32%N) && bool_decide (N.to_nat len ≤ length elems)
         && forallb (λ x, bool_decide (x < 2 ^ 32)%N) xs
      then Some xs else None
  | _ => None
  end.

Definition plainABI : ABI := decode_uint32s.

Definition bytes_of_word (n : N) : bytes :=
  (λ i, default Byte.x00 (Byte.of_N ((n / 256 ^ N.of_nat (31 - i)) mod 256)%N))
    <$> seq 0 32.

Definition encode_uint32s (xs : list N) : bytes :=
  bytes_of_word 32 ++ bytes_of_word (N.of_nat (length xs))
    ++ mjoin (bytes_of_word <$> xs).

End Plain.

(** ** A plain instance of the frontend's platform

    JSON for strings that need no escaping, UTF-8 for ASCII text, and
    base64. *)

Module PlainJS.
Import App.

Definition dquote : ascii := ascii_of_nat 34.

Definition quoted (s : string) : string :=
  String dquote (s +:+ String dquote EmptyString).

Fixpoint stringify (v : json) : string :=
  match v with
  | JNull => "null"
  | JBool true => "true"
  | JBool false => "false"
  | JNum n => pretty n
  | JStr s => quoted s
  | JArr l => "[" +:+ String.concat "," (map stringify l) +:+ "]"
  | JObj fields =>
      "{" +:+ String.concat ","
                ((λ kv, quoted kv.1 +:+ ":" +:+ kv.2)
                   <$> map_to_list (stringify <$> fields)) +:+ "}"
  end.

(** The text up to the closing quote, and what follows it. *)
Fixpoint read_string (s : string) : option (string * string) :=
  match s with
  | EmptyString => None
  | String c r =>
      if decide (c = dquote) then Some (EmptyString, r)
      else '(t, r') ← read_string r; Some (String c t, r')
  end.

Definition digit (c : ascii) : option N :=
  let n := N_of_ascii c in
  if decide (48 ≤ n ∧ n ≤ 57)%N then Some (n - 48)%N else None.

Fixpoint read_digits (acc : N) (s : string) : N * string :=
  match s with
  | EmptyString => (acc, s)
  | String c r =>
      match digit c with
      | Some d => read_digits (acc * 10 + d) r
      | None => (acc, s)
      end
  end.

Definition expect (word : string) (v : json) (s : string)
  : option (json * string) :=
  if String.prefix word s
  then Some (v, String.substring (String.length word)
                  (String.length s - String.length word) s)
  else None.

Fixpoint parse_value (fuel : nat) (s : string) : option (json * string) :=
  match fuel, s with
  | Datatypes.S fuel, String c r =>
      if decide (c = dquote) then
        '(t, r') ← read_string r; Some (JStr t, r')
      else if decide (c = "["%char) then
        match r with
        | String "]" r' => Some (JArr [], r')
        | _ => '(l, r') ← parse_elems fuel r; Some (JArr l, r')
        end
      else if decide (c = "{"%char) then
        match r with
        | String "}" r' => Some (JObj ∅, r')
        | _ => '(l, r') ← parse_members fuel r; Some (JObj (list_to_map l), r')
        end
      else if decide (c = "-"%char) then
        let '(n, r') := read_digits 0 r in Some (JNum (- Z.of_N n), r')
      else if bool_decide (is_Some (digit c)) then
        let '(n, r') := read_digits 0 s in Some (JNum (Z.of_N n), r')
      else if decide (c = "n"%char) then expect "null" JNull s
      else if decide (c = "t"%char) then expect "true" (JBool true) s
      else if decide (c = "f"%char) then expect "false" (JBool false) s
      else None
  | _, _ => None
  end
with parse_elems (fuel : nat) (s : string) : option (list json * string) :=
  match fuel with
  | O => None
  | Datatypes.S fuel =>
      '(v, r) ← parse_value fuel s;
      match r with
      | String "," r' => '(l, r'') ← parse_elems fuel r'; Some (v :: l, r'')
      | String "]" r' => Some ([v], r')
      | _ => None
      end
  end
with parse_members (fuel : nat) (s : string)
  : option (list (string * json) * string) :=
  match fuel, s with
  | Datatypes.S fuel, String c r =>
      if decide (c = dquote) then
        '(k, r) ← read_string r;
        match r with
        | String ":" r =>
            '(v, r) ← parse_value fuel r;
            match r with
            | String "," r' =>
                '(l, r'') ← parse_members fuel r'; Some ((k, v) :: l, r'')
            | String "}" r' => Some ([(k, v)], r')
            | _ => None
            end
        | _ => None
        end
      else None
  | _, _ => None
  end.

Definition parse (s : string) : option json :=
  match parse_value (Datatypes.S (String.length s)) s with
  | Some (v, EmptyString) => Some v
  | _ => None
  end.

Definition base64_alphabet : string :=
  "ABCDEFGHIJKLMNOPQRSTUVWXYZabcdefghijklmnopqrstuvwxyz0123456789+/".

Definition sextet (n : N) : ascii :=
  default "="%char (String.get (N.to_nat n) base64_alphabet).

Fixpoint base64 (l : list N) : list ascii :=
  match l with
  | [] => []
  | [a] => [sextet (a / 4); sextet (a mod 4 * 16); "="; "="]%char%N
  | [a; b] =>
      [sextet (a / 4); sextet (a mod 4 * 16 + b / 16);
       sextet (b mod 16 * 4); "="%char]%N
  | a :: b :: c :: r =>
      [sextet (a / 4); sextet (a mod 4 * 16 + b / 16);
       sextet (b mod 16 * 4 + c / 64); sextet (c mod 64)]%N ++ base64 r
  end.

Definition plainPlatform : Platform := {|
  JSON_stringify := stringify;
  JSON_parse := parse;
  toUtf8Bytes := λ s, Ascii.byte_of_ascii <$> String.list_ascii_of_string s;
  toUtf8String := λ b,
    Some (String.string_of_list_ascii (Ascii.ascii_of_byte <$> b));
  btoa := λ s,
    String.string_of_list_ascii
      (base64 (N_of_ascii <$> String.list_ascii_of_string s))
|}.

(** [toLowerCase] on Latin-1 text. *)
Definition lower (c : ascii) : ascii :=
  let n := N_of_ascii c in
  if bool_decide ((65 ≤ n ∧ n ≤ 90) ∨ (192 ≤ n ∧ n ≤ 222 ∧ n ≠ 215))%N
  then ascii_of_N (n + 32) else c.

Fixpoint lowerCase (s : string) : string :=
  match s with
  | EmptyString => EmptyString
  | String c s' => String (lower c) (lowerCase s')
  end.

(** [String(v)] for strings, integers below 10^21 in size, [null],
    booleans, arrays and objects. *)
Fixpoint toString (v : json) : string :=
  match v with
  | JNull => "null"
  | JBool true => "true"
  | JBool false => "false"
  | JNum n => pretty n
  | JStr s => s
  | JArr l =>
      String.concat ","
        (map (λ x, match x with JNull => EmptyString | _ => toString x end) l)
  | JObj _ => "[object Object]"
  end.

Definition timestampNumber (t : DigitalTwin) : Z :=
  match timestamp t with
  | Some (JNum n) => n
  | _ => 0
  end.

(** Newest first, for twins whose timestamps are numbers. *)
Definition newestFirst (a b : DigitalTwin) : Prop :=
  (timestampNumber b ≤ timestampNumber a)%Z.

Global Instance newestFirst_dec : RelDecision newestFirst :=
  λ a b, decide (timestampNumber b ≤ timestampNumber a)%Z.

Definition plainRuntime : Runtime := {|
  ToString := toString;
  toLowerCase := lowerCase;
  sortByTimestampDesc := merge_sort newestFirst
|}.

End PlainJS.

(** ** Sample runs *)

Module Sample.
Import PrecisionMedTwin Plain App PlainJS.
#[local] Existing Instances plainFHE plainABI plainPlatform.

Definition cleartexts567 : PrecisionMedTwin.bytes := encode_uint32s [5; 6; 7]%N.
Definition cleartexts89 : PrecisionMedTwin.bytes := encode_uint32s [8; 9]%N.

(** Patient 7 has data and a stored simulation result; the model has
    one parameter more than the patient has genomic values. *)
Definition simulated : State :=
  run [SetModelParameters [2; 3; 4] [] [];
       SubmitHealthData 100 7 [10; 20] [] [] [1; 2];
       StoreSimulationResult 7 11 [12; 13]]%N
      (deployed 0%N).

(** The oracle hands out request id 0 for patient 7. *)
Definition requested : State := step simulated (RequestResultDecryption 7).

Definition shown : State :=
  step requested (DecryptSimulationResult 0 cleartexts567 cleartexts567).

(** The calls that lead to [shown]. *)
Definition history : list Call :=
  [SetModelParameters [2; 3; 4] [] [];
   SubmitHealthData 100 7 [10; 20] [] [] [1; 2];
   StoreSimulationResult 7 11 [12; 13];
   RequestResultDecryption 7;
   DecryptSimulationResult 0 cleartexts567 cleartexts567]%N.

(** A new simulation result for patient 7, then the old request id
    replayed with another cleartext. *)
Definition replay : list Call :=
  [StoreSimulationResult 7 11 [12; 13];
   DecryptSimulationResult 0 cleartexts89 cleartexts89]%N.

(** Calls that concern neither request id 0 nor the result of
    patient 7. *)
Definition unrelated : list Call :=
  [RequestSimulation 7; StoreSimulationResult 9 1 []]%N.

(** Only patient 0 has a simulation result. *)
Definition simulated0 : State :=
  run [StoreSimulationResult 0 1 [2]]%N (deployed 0%N).

Definition noCleartexts : PrecisionMedTwin.bytes := encode_uint32s [].

(** The contract right after deployment, the oracle's counter at 0. *)
Definition fresh : State := deployed 0%N.

(** The health record of patient 7 in [simulated]. *)
Definition healthRecord7 : EncryptedHealthData :=
  mkEncryptedHealthData 7 [10; 20]%N [] [] [1; 2]%N 100.

(** Patient 7 has data, and the genomic model has no parameters yet. *)
Definition unmodelled : State :=
  run [SubmitHealthData 100 7 [10; 20] [] [] [1; 2]]%N (deployed 0%N).

(** Patient 3 gets a result and a decryption request of its own. *)
Definition later : list Call :=
  [StoreSimulationResult 3 1 [2]; RequestResultDecryption 3]%N.

Definition browser : Env := mkEnv true true "0xabc" 1700000000123 "k3j9x2a".
Definition geneTwin : NewTwinData := mkNewTwinData "gene" "desc" "BRCA1".

#[local] Existing Instance plainRuntime.

(** A store with one twin, the gene twin of [browser]. *)
Definition firstId : string := makeTwinId browser.
Definition oneTwin : gmap string App.bytes := (submitTwin browser geneTwin ∅).1.

(** A second submission, half a second later. *)
Definition laterBrowser : Env :=
  mkEnv true true "0xabc" 1700000000623 "q8w2e5r".
Definition cellTwin : NewTwinData := mkNewTwinData "cell" "biopsy" "TP53".

Definition reader : ReadEnv := mkReadEnv true true.

(** Stores whose index is not JSON, and is JSON but no array. *)
Definition garbledIndex : gmap string App.bytes :=
  {["twin_keys" := toUtf8Bytes "[oops"]}.
Definition objectIndex : gmap string App.bytes :=
  {["twin_keys" := toUtf8Bytes "{}"]}.

End Sample.

(** ** Properties of the contract *)

Module PrecisionMedTwinSpec.
Import PrecisionMedTwin.

Section Proofs.

Context `{fhe : FHE, abi : ABI}.

Lemma bind_ok {S A B} (m : M S A) (f : A → M S B) s a s' :
  m s = Ok a s' → (m ≫= f) s = f a s'.
Proof. unfold mbind, M_bind. by intros ->. Qed.

Lemma index_lookup {S A} (a : list A) i x (s : S) :
  a !! i = Some x → index a i s = Ok x s.
Proof. unfold index. by intros ->. Qed.

(** The multiply-accumulate loop, started at position [length pre]. *)
Lemma genomic_loop (st : State) params data pre suf acc :
  params = pre ++ suf →
  for_iter (length suf) (length pre)
    (λ i risk,
       if decide (i < length data) then
         a ← index params i;
         b ← index data i;
         mret (FHE_add risk (FHE_mul a b))
       else mret risk) acc st
  = Ok (foldl (λ acc ab, FHE_add acc (FHE_mul ab.1 ab.2)) acc
          (zip suf (drop (length pre) data))) st.
Proof.
  revert pre acc. induction suf as [|a suf IH]; intros pre acc ->; [done|].
  cbn [length for_iter].
  assert (Ha : (pre ++ a :: suf) !! length pre = Some a)
    by (by rewrite list_lookup_middle).
  destruct (decide (length pre < length data)) as [Hlt|Hge].
  - destruct (lookup_lt_is_Some_2 data _ Hlt) as [b Hb].
    erewrite bind_ok; last first.
    { cbn beta.
      erewrite bind_ok by (by apply index_lookup).
      erewrite bind_ok by (by apply index_lookup). done. }
    specialize (IH (pre ++ [a]) (FHE_add acc (FHE_mul a b))).
    rewrite length_app in IH. cbn [length] in IH.
    replace (length pre + 1) with (Datatypes.S (length pre)) in IH by lia.
    rewrite IH by (by rewrite <- app_assoc).
    rewrite (drop_S _ _ _ Hb). done.
  - erewrite bind_ok; last done.
    specialize (IH (pre ++ [a]) acc).
    rewrite length_app in IH. cbn [length] in IH.
    replace (length pre + 1) with (Datatypes.S (length pre)) in IH by lia.
    rewrite IH by (by rewrite <- app_assoc).
    rewrite !drop_ge by lia. by destruct suf.
Qed.

Lemma genomic_range (st : State) params data acc :
  for_range 0 (length params)
    (λ i risk,
       if decide (i < length data) then
         a ← index params i;
         b ← index data i;
         mret (FHE_add risk (FHE_mul a b))
       else mret risk) acc st
  = Ok (foldl (λ acc ab, FHE_add acc (FHE_mul ab.1 ab.2)) acc
          (zip params data)) st.
Proof.
  unfold for_range. rewrite Nat.sub_0_r.
  exact (genomic_loop st params data [] params acc eq_refl).
Qed.

Ltac mstep :=
  cbv [mbind M_bind mret M_ret get modify fail require]; cbn beta iota.

Lemma set_decryptedResults_twice p v w (st : State) :
  set_decryptedResults p w (set_decryptedResults p v st)
  = set_decryptedResults p w st.
Proof.
  unfold set_decryptedResults; cbn. by rewrite insert_insert_eq.
Qed.

Lemma decryptedResults_at_set p v (st : State) :
  decryptedResults_at (set_decryptedResults p v st) p = v.
Proof.
  unfold decryptedResults_at, set_decryptedResults; cbn.
  by rewrite lookup_insert_eq.
Qed.

(** The flattening loop, with [pre] already copied. *)
Lemma flatten_loop (st : State) drugs x0 pre suf :
  drugs = pre ++ suf →
  for_iter (length suf) (length pre)
    (λ i ciphertexts,
       x ← index drugs i;
       assign ciphertexts (i + 1) (FHE_toBytes32 x))
    (x0 :: (FHE_toBytes32 <$> pre) ++ replicate (length suf) 0%N) st
  = Ok (x0 :: (FHE_toBytes32 <$> drugs)) st.
Proof.
  revert pre. induction suf as [|a suf IH]; intros pre ->.
  { cbn. by rewrite !app_nil_r. }
  cbn [length for_iter]. erewrite bind_ok; last first.
  { cbn beta.
    erewrite bind_ok by (apply index_lookup; by rewrite list_lookup_middle).
    unfold assign. rewrite decide_True; [reflexivity|].
    cbn. rewrite length_app, length_fmap. cbn. lia. }
  replace (length pre + 1) with (Datatypes.S (length pre)) by lia.
  cbn [replicate].
  change (<[Datatypes.S ?n := ?v]> (?x :: ?l)) with (x :: <[n := v]> l).
  rewrite insert_app_r_alt by (by rewrite length_fmap).
  rewrite length_fmap, Nat.sub_diag.
  change (<[0 := ?v]> (?x :: ?l)) with (v :: l).
  specialize (IH (pre ++ [a])).
  rewrite length_app, fmap_app, <- !app_assoc in IH. cbn in IH.
  replace (length pre + 1) with (Datatypes.S (length pre)) in IH by lia.
  by apply IH.
Qed.

Lemma prepareCiphertexts_ok (r : SimulationResult) (st : State) :
  prepareCiphertexts r st = Ok (flattened r) st.
Proof.
  unfold prepareCiphertexts, for_range, flattened.
  erewrite bind_ok; last first.
  { unfold assign. rewrite decide_True by (cbn; lia). reflexivity. }
  rewrite Nat.sub_0_r. cbn [Nat.add replicate].
  change (<[0 := ?v]> (?x :: ?l)) with (v :: l).
  exact (flatten_loop st (drugResponse r) _ [] (drugResponse r) eq_refl).
Qed.

(** What [requestResultDecryption] does, guard by guard. *)
Lemma requestResultDecryption_eq (p : N) (st : State) :
  requestResultDecryption p st =
    let result := simulationResults_at st p in
    if negb (isComplete result) then Fail (Revert "Simulation not complete")
    else if isRevealed (decryptedResults_at st p)
    then Fail (Revert "Already revealed")
    else
      let out :=
        FHE_requestDecryption (fheStore st) (flattened result) selector in
      Ok tt (set_requestToPatientId out.1 p (set_fheStore out.2 st)).
Proof.
  unfold requestResultDecryption. mstep.
  destruct (isComplete _); [|done]. cbn.
  destruct (isRevealed _); [done|]. cbn.
  rewrite prepareCiphertexts_ok.
  by destruct (FHE_requestDecryption _ _ _).
Qed.

(** The copy loop of the callback, with [pre] already written. *)
Lemma copy_loop (st : State) p results r0 pre suf risk rev :
  results = r0 :: pre ++ suf →
  for_iter (length suf) (Datatypes.S (length pre))
    (λ i _, x ← index results i;
            j ← checked_sub i 1;
            dResult_assign_drugResponse p j x) tt
    (set_decryptedResults p
       (mkDecryptedResult risk (pre ++ replicate (length suf) 0%N) rev) st)
  = Ok tt (set_decryptedResults p (mkDecryptedResult risk (pre ++ suf) rev) st).
Proof.
  revert pre. induction suf as [|a suf IH]; intros pre ->; [done|].
  cbn [length for_iter]. erewrite bind_ok; last first.
  { cbn beta. erewrite bind_ok; last first.
    { apply index_lookup. change ((?x :: ?l) !! Datatypes.S ?n) with (l !! n).
      by rewrite list_lookup_middle. }
    unfold checked_sub. rewrite decide_True by lia.
    erewrite bind_ok by reflexivity.
    unfold dResult_assign_drugResponse.
    erewrite bind_ok by reflexivity.
    rewrite decryptedResults_at_set. cbn [decDrugResponse].
    unfold assign. rewrite decide_True; last first.
    { rewrite length_app. cbn. lia. }
    erewrite bind_ok by reflexivity.
    unfold dResult_set_drugResponse, modify.
    rewrite decryptedResults_at_set, set_decryptedResults_twice.
    cbn [decDiseaseRiskScore isRevealed replicate].
    replace (Datatypes.S (length pre) - 1) with (length pre) by lia.
    rewrite insert_app_r_alt, Nat.sub_diag by done.
    change (<[0 := ?v]> (?x :: ?l)) with (v :: l). reflexivity. }
  specialize (IH (pre ++ [a])).
  rewrite length_app, <- !app_assoc in IH. cbn in IH.
  replace (length pre + 1) with (Datatypes.S (length pre)) in IH by lia.
  by apply IH.
Qed.

(** What [decryptSimulationResult] does, guard by guard. *)
Lemma decryptSimulationResult_eq (r : N) (cl pr : bytes) (st : State) :
  decryptSimulationResult r cl pr st =
    let p := requestToPatientId_at st r in
    if bool_decide (p = 0%N) then Fail (Revert "Invalid request")
    else if isRevealed (decryptedResults_at st p)
    then Fail (Revert "Already revealed")
    else if negb (FHE_checkSignatures (fheStore st) r cl pr)
    then Fail (ExternalRevert "FHE.checkSignatures")
    else match abi_decode_uint32s cl with
         | None => Fail (ExternalRevert "abi.decode")
         | Some [] => Fail (Panic PANIC_INDEX)
         | Some (r0 :: rest) => Ok tt (revealed p r0 rest st)
         end.
Proof.
  unfold decryptSimulationResult.
  erewrite bind_ok by reflexivity. cbn zeta.
  set (p := requestToPatientId_at st r).
  destruct (bool_decide (p = 0%N)); [done|].
  erewrite bind_ok by reflexivity.
  destruct (isRevealed (decryptedResults_at st p)) eqn:Hrev; [done|].
  erewrite bind_ok by reflexivity.
  destruct (FHE_checkSignatures _ _ _ _); [|done].
  erewrite bind_ok by reflexivity. cbn [negb].
  destruct (abi_decode_uint32s cl) as [[|r0 rest]|]; [done| |done].
  erewrite bind_ok by reflexivity.
  erewrite bind_ok by reflexivity.
  erewrite bind_ok by reflexivity.
  unfold checked_sub. rewrite decide_True by (cbn; lia).
  erewrite bind_ok by reflexivity.
  erewrite bind_ok; last first.
  { unfold dResult_set_drugResponse, modify.
    rewrite decryptedResults_at_set, set_decryptedResults_twice.
    reflexivity. }
  cbn [decDiseaseRiskScore isRevealed length].
  rewrite Nat.sub_succ, Nat.sub_0_r.
  erewrite bind_ok; last first.
  { unfold for_range. cbn [length]. rewrite Nat.sub_succ, Nat.sub_0_r.
    exact (copy_loop st p (r0 :: rest) r0 [] rest _ _ eq_refl). }
  erewrite bind_ok; last first.
  { unfold dResult_set_isRevealed, modify.
    rewrite decryptedResults_at_set, set_decryptedResults_twice.
    reflexivity. }
  cbn. unfold revealed. reflexivity.
Qed.

Lemma zip_take_min {A B} (l : list A) (k : list B) :
  zip (take (length l `min` length k) l) (take (length l `min` length k) k)
  = zip l k.
Proof.
  revert k. induction l as [|a l IH]; intros [|b k]; cbn; try done.
  by rewrite IH.
Qed.

Lemma predictDiseaseRisk_eq (st : State) (p : N) :
  (0 < timestamp (patientData_at st p))%N →
  predictDiseaseRisk p st
  = Ok (encryptedDot (genomicModelParams st)
          (genomicData (patientData_at st p))) st.
Proof.
  intros Hts. unfold predictDiseaseRisk.
  erewrite bind_ok by reflexivity.
  erewrite bind_ok; last first.
  { unfold require. rewrite bool_decide_eq_true_2 by done. reflexivity. }
  apply genomic_range.
Qed.

(** C5. For a patient with submitted data, [predictDiseaseRisk] returns,
    without failing and without changing the state, the encrypted dot
    product of the genomic model parameters with the patient's genomic
    data, accumulated from encrypted zero over exactly the first
    [min (length params) (length data)] positions: vectors of unequal
    length are cut to the shorter one. *)
Theorem predictDiseaseRisk_truncated_dot (st : State) (p : N) :
  (0 < timestamp (patientData_at st p))%N →
  let params := genomicModelParams st in
  let data := genomicData (patientData_at st p) in
  let m := length params `min` length data in
  predictDiseaseRisk p st = Ok (encryptedDot params data) st
  ∧ encryptedDot params data = encryptedDot (take m params) (take m data)
  ∧ length (zip params data) = m.
Proof.
  intros Hts params data m. split; [|split].
  - by apply predictDiseaseRisk_eq.
  - unfold encryptedDot, m. by rewrite zip_take_min.
  - unfold m. by rewrite length_zip_with.
Qed.

(** C6. For a patient with submitted data, [predictDrugResponse p k]
    is [predictDiseaseRisk p] plus the biomarker at index [k] when [k]
    is within the biomarker vector, and is [predictDiseaseRisk p] itself
    when [k] is out of range; neither call fails. *)
Theorem predictDrugResponse_adds_biomarker (st : State) (p k : N) :
  (0 < timestamp (patientData_at st p))%N →
  let bio := biomarkers (patientData_at st p) in
  ∃ risk,
    predictDiseaseRisk p st = Ok risk st
    ∧ ((k < N.of_nat (length bio))%N →
       ∃ b, bio !! N.to_nat k = Some b
            ∧ predictDrugResponse p k st = Ok (FHE_add risk b) st)
    ∧ ((N.of_nat (length bio) ≤ k)%N →
       predictDrugResponse p k st = Ok risk st).
Proof.
  intros Hts bio.
  eexists. split; [by apply predictDiseaseRisk_eq|].
  assert (Hpre :
    predictDrugResponse p k st
    = (if decide (k < N.of_nat (length bio))%N
       then b ← index bio (N.to_nat k);
            mret (FHE_add (encryptedDot (genomicModelParams st)
                    (genomicData (patientData_at st p))) b)
       else mret (encryptedDot (genomicModelParams st)
                    (genomicData (patientData_at st p)))) st).
  { unfold predictDrugResponse.
    erewrite bind_ok by reflexivity.
    erewrite bind_ok; last first.
    { unfold require. rewrite bool_decide_eq_true_2 by done. reflexivity. }
    erewrite bind_ok by apply genomic_range. done. }
  split.
  - intros Hlt.
    destruct (lookup_lt_is_Some_2 bio (N.to_nat k)) as [b Hb]; [lia|].
    exists b. split; [done|]. rewrite Hpre, decide_True by done.
    by erewrite bind_ok by (by apply index_lookup).
  - intros Hge. rewrite Hpre, decide_False by lia. done.
Qed.

Lemma transact_fail {S A} (m : M S A) (s : S) e :
  m s = Fail e → transact m s = s.
Proof. unfold transact. by intros ->. Qed.

Lemma transact_ok {S A} (m : M S A) (s s' : S) a :
  m s = Ok a s' → transact m s = s'.
Proof. unfold transact. by intros ->. Qed.

Lemma requestToPatientId_at_lookup (st : State) r p :
  requestToPatientId st !! r = Some p → requestToPatientId_at st r = p.
Proof. unfold requestToPatientId_at. by intros ->. Qed.

(** C1. A successful callback whose request id is recorded for patient
    [p] and whose cleartext decodes to a non-empty array writes element
    0 as [p]'s risk score, the elements after it, in order, as [p]'s
    drug-response vector, and marks the record revealed. The order is the
    one of the flattening: if the array is the element-wise cleartext of
    ciphertexts that [requestResultDecryption] prepared from a simulation
    result, the score is the cleartext of its risk score and the vector
    the cleartexts of its drug responses as stored. *)
Theorem decryptSimulationResult_reveals
    (st st' : State) (r p : N) (cl pr : bytes) (results : list N) :
  requestToPatientId st !! r = Some p →
  abi_decode_uint32s cl = Some results →
  results ≠ [] →
  decryptSimulationResult r cl pr st = Ok tt st' →
  ∃ r0 rest,
    results = r0 :: rest
    ∧ decryptedResults st' !! p = Some (mkDecryptedResult r0 rest true)
    ∧ length rest = length results - 1
    ∧ (∀ i, rest !! i = results !! Datatypes.S i)
    ∧ (∀ (sr : SimulationResult) (st0 st1 : State) cts (dec : bytes32 → N),
         prepareCiphertexts sr st0 = Ok cts st1 →
         results = dec <$> cts →
         r0 = dec (FHE_toBytes32 (diseaseRiskScore sr))
         ∧ rest = (λ c, dec (FHE_toBytes32 c)) <$> drugResponse sr).
Proof.
  intros Hr Hdec Hne Hok.
  rewrite decryptSimulationResult_eq in Hok. cbn zeta in Hok.
  rewrite (requestToPatientId_at_lookup _ _ _ Hr), Hdec in Hok.
  destruct results as [|r0 rest]; [done|].
  repeat case_match; try discriminate. injection Hok as <-.
  exists r0, rest. split_and!; try done.
  - cbn. by rewrite lookup_insert_eq.
  - cbn. lia.
  - intros sr st0 st1 cts dec Hcts Hres.
    rewrite prepareCiphertexts_ok in Hcts. injection Hcts as <- _.
    unfold flattened in Hres. cbn in Hres. injection Hres as -> ->.
    split; [done|]. by rewrite <- list_fmap_compose.
Qed.

(** C2. The callback rejects a request id that is not mapped to a
    patient, rejects a call for a patient whose result is already
    revealed, and rejects an invalid proof; every failed callback leaves
    the whole state, the stored decrypted results among it, as it was. *)
Theorem decryptSimulationResult_rejects
    (st : State) (r : N) (cl pr : bytes) :
  (requestToPatientId st !! r = None →
     decryptSimulationResult r cl pr st = Fail (Revert "Invalid request"))
  ∧ (∀ p, requestToPatientId st !! r = Some p →
       isRevealed (decryptedResults_at st p) = true →
       decryptSimulationResult r cl pr st =
         Fail (Revert (if bool_decide (p = 0%N)
                       then "Invalid request" else "Already revealed")))
  ∧ (FHE_checkSignatures (fheStore st) r cl pr = false →
       ∃ e, decryptSimulationResult r cl pr st = Fail e)
  ∧ (∀ e, decryptSimulationResult r cl pr st = Fail e →
       transact (decryptSimulationResult r cl pr) st = st
       ∧ decryptedResults (transact (decryptSimulationResult r cl pr) st)
         = decryptedResults st).
Proof.
  split_and!.
  - intros Hr. rewrite decryptSimulationResult_eq.
    unfold requestToPatientId_at. by rewrite Hr.
  - intros p Hr Hrev. rewrite decryptSimulationResult_eq. cbn zeta.
    rewrite (requestToPatientId_at_lookup _ _ _ Hr), Hrev.
    by destruct (bool_decide (p = 0%N)).
  - intros Hsig. rewrite decryptSimulationResult_eq. cbn zeta.
    rewrite Hsig. cbn [negb]. repeat case_match; eauto.
  - intros e He. by rewrite (transact_fail _ _ _ He).
Qed.

(** C3. [requestResultDecryption p] fails with a precondition violation
    when the simulation of [p] is not complete or the result of [p] is
    already revealed, and then leaves the state as it was. Otherwise it
    sends the oracle one request over [1 + length drugResponse]
    ciphertexts, the handle of the risk score first and the handles of
    the drug responses after it in stored order, keeps the storage the
    oracle returns, and records the returned id as mapping to [p]. *)
Theorem requestResultDecryption_guarded (st : State) (p : N) :
  let sr := simulationResults_at st p in
  let cts := FHE_toBytes32 (diseaseRiskScore sr)
             :: (FHE_toBytes32 <$> drugResponse sr) in
  let out := FHE_requestDecryption (fheStore st) cts selector in
  let st' := transact (requestResultDecryption p) st in
  (isComplete sr = false →
     requestResultDecryption p st = Fail (Revert "Simulation not complete")
     ∧ st' = st)
  ∧ (isRevealed (decryptedResults_at st p) = true →
     requestResultDecryption p st
       = Fail (Revert (if isComplete sr then "Already revealed"
                       else "Simulation not complete"))
     ∧ st' = st
     ∧ decryptedResults st' = decryptedResults st)
  ∧ (isComplete sr = true →
     isRevealed (decryptedResults_at st p) = false →
     prepareCiphertexts sr st = Ok cts st
     ∧ length cts = 1 + length (drugResponse sr)
     ∧ requestResultDecryption p st
       = Ok tt (set_requestToPatientId out.1 p (set_fheStore out.2 st))
     ∧ requestToPatientId st' = <[out.1 := p]> (requestToPatientId st)
     ∧ requestToPatientId_at st' out.1 = p
     ∧ fheStore st' = out.2
     ∧ decryptedResults st' = decryptedResults st).
Proof.
  intros sr cts out st'.
  pose proof (requestResultDecryption_eq p st) as Heq.
  cbn zeta in Heq. fold sr in Heq.
  change (flattened sr) with cts in Heq. fold out in Heq.
  subst st'. split_and!.
  - intros Hc. rewrite Hc in Heq. cbn in Heq.
    split; [done|]. by rewrite (transact_fail _ _ _ Heq).
  - intros Hrev. rewrite Hrev in Heq.
    destruct (isComplete sr); cbn in Heq;
      by rewrite (transact_fail _ _ _ Heq).
  - intros Hc Hrev. rewrite Hc, Hrev in Heq. cbn [negb] in Heq.
    rewrite (transact_ok _ _ _ _ Heq). split_and!; try done.
    + apply prepareCiphertexts_ok.
    + subst cts. cbn. by rewrite length_fmap.
    + unfold requestToPatientId_at. cbn. by rewrite lookup_insert_eq.
Qed.

(** *** One call at a time *)

Lemma issuedId_eq (st : State) (p : N) :
  issuedId st p
  = Some (FHE_requestDecryption (fheStore st)
            (flattened (simulationResults_at st p)) selector).1.
Proof. unfold issuedId. by rewrite prepareCiphertexts_ok. Qed.

(** Only a successful [requestResultDecryption] writes the request map,
    and it writes the id the oracle issued. *)
Lemma step_requestToPatientId (st : State) (c : Call) :
  requestToPatientId (step st c) =
    match c, call c st with
    | RequestResultDecryption p, Ok _ _ =>
        match issuedId st p with
        | Some rid => <[rid := p]> (requestToPatientId st)
        | None => requestToPatientId st
        end
    | _, _ => requestToPatientId st
    end.
Proof.
  unfold step, transact. destruct c; cbn [call].
  - done.
  - done.
  - unfold requestSimulation. mstep. by destruct (bool_decide _).
  - done.
  - rewrite issuedId_eq, requestResultDecryption_eq. cbn zeta.
    destruct (isComplete _); [|done].
    by destruct (isRevealed _).
  - rewrite decryptSimulationResult_eq. cbn zeta.
    repeat case_match; simplify_eq; done.
  - done.
  - done.
  - done.
Qed.

(** A call other than [storeSimulationResult p] leaves a revealed
    record of [p] alone. *)
Lemma step_keeps_revealed (st : State) (c : Call) (p : N) :
  isStoreFor p c = false →
  isRevealed (decryptedResults_at st p) = true →
  decryptedResults (step st c) !! p = decryptedResults st !! p.
Proof.
  intros Hc Hrev. unfold step, transact. destruct c; cbn [call].
  - done.
  - done.
  - unfold requestSimulation. mstep. by destruct (bool_decide _).
  - cbn in Hc. apply bool_decide_eq_false in Hc.
    unfold storeSimulationResult, emit. mstep. cbn.
    by rewrite lookup_insert_ne.
  - rewrite requestResultDecryption_eq. cbn zeta.
    destruct (isComplete _); [|done].
    by destruct (isRevealed (decryptedResults_at st p0)).
  - rewrite decryptSimulationResult_eq. cbn zeta.
    generalize (requestToPatientId_at st requestId). intros q.
    destruct (bool_decide _); [done|].
    destruct (isRevealed (decryptedResults_at st q)) eqn:Hq; [done|].
    destruct (negb _); [done|].
    destruct (abi_decode_uint32s _) as [[|r0 rest]|]; try done.
    cbn. rewrite lookup_insert_ne; [done|]. intros ->. congruence.
  - done.
  - done.
  - done.
Qed.

Lemma run_cons (st : State) c cs : run (c :: cs) st = run cs (step st c).
Proof. done. Qed.

Lemma run_keeps_revealed (cs : list Call) (st : State) (p : N) :
  forallb (λ c, negb (isStoreFor p c)) cs = true →
  isRevealed (decryptedResults_at st p) = true →
  decryptedResults (run cs st) !! p = decryptedResults st !! p.
Proof.
  revert st. induction cs as [|c cs IH]; intros st Hcs Hrev; [done|].
  cbn in Hcs. apply andb_prop in Hcs as [Hc Hcs].
  apply negb_true_iff in Hc.
  pose proof (step_keeps_revealed st c p Hc Hrev) as Hstep.
  rewrite run_cons, IH, Hstep; try done.
  unfold decryptedResults_at in *. by rewrite Hstep.
Qed.

Lemma run_requestToPatientId (cs : list Call) (st : State) (r : N) :
  r ∉ issuedIds cs st →
  requestToPatientId (run cs st) !! r = requestToPatientId st !! r.
Proof.
  revert st. induction cs as [|c cs IH]; intros st Hr; [done|].
  cbn [issuedIds] in Hr. apply not_elem_of_app in Hr as [Hc Hcs].
  rewrite run_cons, IH by done. rewrite step_requestToPatientId.
  destruct c; try done. destruct (call _ st); [|done].
  destruct (issuedId st p) as [rid|]; [|done].
  cbn in Hc. rewrite lookup_insert_ne; [done|]. set_solver.
Qed.

Lemma run_requestToPatientId_mono (cs : list Call) (st : State) (r : N) :
  is_Some (requestToPatientId st !! r) →
  is_Some (requestToPatientId (run cs st) !! r).
Proof.
  revert st. induction cs as [|c cs IH]; intros st Hr; [done|].
  rewrite run_cons. apply IH. rewrite step_requestToPatientId.
  repeat case_match; try done. by apply lookup_insert_is_Some'; right.
Qed.

Lemma run_snoc (cs : list Call) (c : Call) (st : State) :
  run (cs ++ [c]) st = step (run cs st) c.
Proof. unfold run. by rewrite foldl_app. Qed.

(** The callback never writes the record of patient 0. *)
Lemma callback_skips_zero (st : State) (r : N) (cl pr : bytes) :
  decryptedResults (step st (DecryptSimulationResult r cl pr)) !! 0%N
  = decryptedResults st !! 0%N.
Proof.
  unfold step, transact. cbn [call].
  rewrite decryptSimulationResult_eq. cbn zeta.
  destruct (bool_decide _) eqn:Hz; [done|].
  apply bool_decide_eq_false in Hz.
  repeat case_match; try done. simplify_eq. cbn.
  by rewrite lookup_insert_ne.
Qed.

Lemma step_zero_unrevealed (st : State) (c : Call) :
  isRevealed (decryptedResults_at st 0) = false →
  isRevealed (decryptedResults_at (step st c) 0) = false.
Proof.
  intros Hz. destruct c.
  - exact Hz.
  - exact Hz.
  - unfold step, transact. cbn [call]. unfold requestSimulation. mstep.
    by destruct (bool_decide _).
  - unfold step, transact. cbn [call].
    unfold storeSimulationResult, emit, decryptedResults_at. mstep. cbn.
    destruct (decide (p = 0%N)) as [->|Hp].
    + by rewrite lookup_insert_eq.
    + by rewrite lookup_insert_ne.
  - unfold step, transact. cbn [call].
    rewrite requestResultDecryption_eq. cbn zeta.
    destruct (isComplete _); [|done].
    by destruct (isRevealed (decryptedResults_at st p)).
  - unfold decryptedResults_at in *. by rewrite callback_skips_zero.
  - exact Hz.
  - exact Hz.
  - exact Hz.
Qed.

Lemma reachable_zero_unrevealed (st : State) :
  reachable st → isRevealed (decryptedResults_at st 0) = false.
Proof.
  intros (fhe0 & cs & ->). induction cs as [|c cs IH] using rev_ind; [done|].
  rewrite run_snoc. by apply step_zero_unrevealed.
Qed.

(** C4, as the contract has it. Once the result of [p] is revealed, no
    sequence of calls without a [storeSimulationResult] for [p] changes
    the decrypted record of [p]: later callbacks and decryption requests
    are rejected or write other patients. A [storeSimulationResult] for
    [p] resets the record to the empty, unrevealed one. *)
Theorem revealed_until_next_store (st : State) (p : N) (cs : list Call) :
  isRevealed (decryptedResults_at st p) = true →
  forallb (λ c, negb (isStoreFor p c)) cs = true →
  decryptedResults (run cs st) !! p = decryptedResults st !! p
  ∧ (∀ risk drugs,
       decryptedResults_at
         (step (run cs st) (StoreSimulationResult p risk drugs)) p
       = mkDecryptedResult 0 [] false).
Proof.
  intros Hrev Hcs. split; [by apply run_keeps_revealed|].
  intros risk drugs. unfold step, transact. cbn [call].
  unfold storeSimulationResult, emit, decryptedResults_at.
  mstep. cbn. by rewrite lookup_insert_eq.
Qed.

(** C7. No call removes an entry of the request map. A call leaves
    the map as it is, or it is a successful decryption request and
    writes the one id the oracle issued for it; so along every sequence
    of calls a request id that the oracle does not issue again keeps the
    patient it maps to. A successful callback leaves the map unchanged:
    its request id maps to a patient other than 0, and still does after
    any further calls that do not issue the id again; and as long as no
    new simulation result is stored for that patient, a replayed
    callback with the id is stopped by the already-revealed guard, not
    by the request check. *)
Theorem requestToPatientId_never_cleared (st : State) :
  (∀ c, requestToPatientId (step st c) = requestToPatientId st
        ∨ ∃ p rid, c = RequestResultDecryption p
                   ∧ issuedId st p = Some rid
                   ∧ requestToPatientId (step st c)
                     = <[rid := p]> (requestToPatientId st))
  ∧ (∀ c, (∀ p, c ≠ RequestResultDecryption p) →
          requestToPatientId (step st c) = requestToPatientId st)
  ∧ (∀ cs r, r ∉ issuedIds cs st →
             requestToPatientId (run cs st) !! r = requestToPatientId st !! r
             ∧ requestToPatientId_at (run cs st) r
               = requestToPatientId_at st r)
  ∧ (∀ r cl pr st',
       decryptSimulationResult r cl pr st = Ok tt st' →
       let p := requestToPatientId_at st r in
       requestToPatientId st' = requestToPatientId st
       ∧ requestToPatientId_at st' r = p
       ∧ p ≠ 0%N
       ∧ (∀ cl' pr', decryptSimulationResult r cl' pr' st'
                     = Fail (Revert "Already revealed"))
       ∧ ∀ cs, r ∉ issuedIds cs st' →
               requestToPatientId_at (run cs st') r = p
               ∧ (forallb (λ c, negb (isStoreFor p c)) cs = true →
                  ∀ cl' pr',
                    decryptSimulationResult r cl' pr' (run cs st')
                    = Fail (Revert "Already revealed"))).
Proof.
  assert (Hat : ∀ (s : State) cs r, r ∉ issuedIds cs s →
            requestToPatientId_at (run cs s) r = requestToPatientId_at s r).
  { intros s cs r Hr. unfold requestToPatientId_at.
    by rewrite (run_requestToPatientId _ _ _ Hr). }
  split_and!.
  - intros c. rewrite step_requestToPatientId.
    destruct c; try (by left). destruct (call _ st); [|by left].
    right. eexists _, _. split_and!; [done | apply issuedId_eq |].
    by rewrite issuedId_eq.
  - intros c Hc. rewrite step_requestToPatientId.
    destruct c; try done. by destruct (Hc p).
  - intros cs r Hr. split; [by apply run_requestToPatientId | by apply Hat].
  - intros r cl pr st' Hok p.
    rewrite decryptSimulationResult_eq in Hok. cbn zeta in Hok.
    fold p in Hok.
    destruct (bool_decide (p = 0%N)) eqn:Hz; [done|].
    apply bool_decide_eq_false in Hz.
    destruct (isRevealed _); [done|]. destruct (negb _); [done|].
    destruct (abi_decode_uint32s cl) as [[|r0 rest]|]; try done.
    injection Hok as <-.
    assert (Hrev : isRevealed (decryptedResults_at (revealed p r0 rest st) p)
                   = true).
    { unfold decryptedResults_at. cbn. by rewrite lookup_insert_eq. }
    assert (Hblocked : ∀ s : State,
              requestToPatientId_at s r = p →
              isRevealed (decryptedResults_at s p) = true →
              ∀ cl' pr', decryptSimulationResult r cl' pr' s
                         = Fail (Revert "Already revealed")).
    { intros s Hp Hs cl' pr'. rewrite decryptSimulationResult_eq. cbn zeta.
      rewrite Hp, Hs. by rewrite bool_decide_eq_false_2 by done. }
    split_and!; try done.
    + by apply Hblocked.
    + intros cs Hr. pose proof (Hat _ cs r Hr) as Hp.
      change (requestToPatientId_at (revealed p r0 rest st) r) with p in Hp.
      split; [done|]. intros Hcs. apply Hblocked; [done|].
      unfold decryptedResults_at.
      rewrite (run_keeps_revealed _ _ _ Hcs Hrev). exact Hrev.
Qed.

(** C9. A decryption request for patient 0 records its request id as
    mapping to 0; the callback for that id then reverts with
    "Invalid request", at once and after any further calls in which the
    oracle does not hand the id out again, because the guard reads a
    mapped 0 as unknown. No callback writes the record of patient 0, and
    in no reachable state is that record revealed. *)
Theorem patient_zero_never_revealed (st st' : State) :
  requestResultDecryption 0 st = Ok tt st' →
  ∃ r, issuedId st 0 = Some r
    ∧ requestToPatientId st' !! r = Some 0%N
    ∧ (∀ cl pr, decryptSimulationResult r cl pr st'
                = Fail (Revert "Invalid request"))
    ∧ (∀ cs cl pr, r ∉ issuedIds cs st' →
         decryptSimulationResult r cl pr (run cs st')
         = Fail (Revert "Invalid request"))
    ∧ (∀ s r' cl pr,
         decryptedResults (step s (DecryptSimulationResult r' cl pr)) !! 0%N
         = decryptedResults s !! 0%N)
    ∧ (∀ s, reachable s → isRevealed (decryptedResults_at s 0) = false).
Proof.
  intros Hok. rewrite requestResultDecryption_eq in Hok. cbn zeta in Hok.
  destruct (negb _); [done|]. destruct (isRevealed _); [done|].
  set (out := FHE_requestDecryption _ _ _) in Hok.
  injection Hok as <-. rewrite issuedId_eq. fold out.
  exists out.1. split; [done|].
  set (st1 := set_requestToPatientId out.1 0 (set_fheStore out.2 st)).
  assert (Hr : ∀ cs, out.1 ∉ issuedIds cs st1 →
    requestToPatientId_at (run cs st1) out.1 = 0%N).
  { intros cs Hcs. unfold requestToPatientId_at.
    rewrite (run_requestToPatientId _ _ _ Hcs). cbn.
    by rewrite lookup_insert_eq. }
  split_and!.
  - cbn. by rewrite lookup_insert_eq.
  - intros cl pr. rewrite decryptSimulationResult_eq. cbn zeta.
    specialize (Hr []). cbn [run foldl] in Hr.
    rewrite Hr; [done|]. apply not_elem_of_nil.
  - intros cs cl pr Hcs. rewrite decryptSimulationResult_eq. cbn zeta.
    by rewrite (Hr cs Hcs).
  - apply callback_skips_zero.
  - apply reachable_zero_unrevealed.
Qed.

(** C10. [getDecryptedSimulationResult] fails for no patient id. For a
    patient without a stored decrypted result it returns score 0, an
    empty vector and [false], the same as right after
    [storeSimulationResult]; the two encrypted getters, by contrast,
    revert when the patient has no entry. *)
Theorem getDecryptedSimulationResult_total (st : State) (p : N) :
  (∃ v, getDecryptedSimulationResult p st = Ok v st)
  ∧ (decryptedResults st !! p = None →
       getDecryptedSimulationResult p st = Ok (0%N, [], false) st)
  ∧ (∀ risk drugs,
       let st' := step st (StoreSimulationResult p risk drugs) in
       getDecryptedSimulationResult p st' = Ok (0%N, [], false) st')
  ∧ (patientData st !! p = None →
       getEncryptedHealthData p st = Fail (Revert "Patient data not found"))
  ∧ (simulationResults st !! p = None →
       getEncryptedSimulationResult p st
       = Fail (Revert "Simulation not complete")).
Proof.
  split_and!.
  - eexists. reflexivity.
  - intros Hn. unfold getDecryptedSimulationResult, decryptedResults_at.
    mstep. by rewrite Hn.
  - intros risk drugs st'.
    unfold getDecryptedSimulationResult, decryptedResults_at. mstep.
    unfold st', step, transact. cbn [call].
    unfold storeSimulationResult, emit.
    mstep. cbn. by rewrite lookup_insert_eq.
  - intros Hn. unfold getEncryptedHealthData, patientData_at.
    mstep. by rewrite Hn.
  - intros Hn. unfold getEncryptedSimulationResult, simulationResults_at.
    mstep. by rewrite Hn.
Qed.

End Proofs.

Import Plain Sample.
#[local] Existing Instances plainFHE plainABI.

Lemma predictDiseaseRisk_truncated_dot_witness :
  predictDiseaseRisk 7 simulated = Ok 80%N simulated
  ∧ encryptedDot [2; 3; 4]%N [10; 20]%N = encryptedDot [2; 3]%N [10; 20]%N
  ∧ length (zip [2; 3; 4]%N [10; 20]%N) = 2.
Proof.
  apply (predictDiseaseRisk_truncated_dot simulated 7). reflexivity.
Defined.

Lemma predictDrugResponse_adds_biomarker_witness :
  ∃ risk,
    predictDiseaseRisk 7 simulated = Ok risk simulated
    ∧ ((1 < 2)%N →
       ∃ b, [1; 2]%N !! 1 = Some b
            ∧ predictDrugResponse 7 1 simulated
              = Ok (FHE_add risk b) simulated)
    ∧ ((2 ≤ 1)%N → predictDrugResponse 7 1 simulated = Ok risk simulated).
Proof.
  apply (predictDrugResponse_adds_biomarker simulated 7 1). reflexivity.
Defined.

Lemma decryptSimulationResult_reveals_witness :
  ∃ r0 rest,
    [5; 6; 7]%N = r0 :: rest
    ∧ decryptedResults shown !! 7%N = Some (mkDecryptedResult r0 rest true)
    ∧ length rest = 2
    ∧ (∀ i, rest !! i = [5; 6; 7]%N !! Datatypes.S i)
    ∧ (∀ (sr : SimulationResult) (st0 st1 : State) cts (dec : bytes32 → N),
         prepareCiphertexts sr st0 = Ok cts st1 →
         [5; 6; 7]%N = dec <$> cts →
         r0 = dec (FHE_toBytes32 (diseaseRiskScore sr))
         ∧ rest = (λ c, dec (FHE_toBytes32 c)) <$> drugResponse sr).
Proof.
  apply (decryptSimulationResult_reveals requested shown 0 7
           cleartexts567 cleartexts567 [5; 6; 7]%N).
  - reflexivity.
  - by_eval.
  - discriminate.
  - by_eval.
Defined.

Lemma decryptSimulationResult_rejects_witness :
  decryptSimulationResult 5 cleartexts567 cleartexts567 requested
    = Fail (Revert "Invalid request")
  ∧ decryptSimulationResult 0 cleartexts89 cleartexts89 shown
    = Fail (Revert "Already revealed")
  ∧ (∃ e, decryptSimulationResult 0 cleartexts567 [] requested = Fail e).
Proof.
  split_and!.
  - apply (proj1 (decryptSimulationResult_rejects requested 5 _ _)).
    reflexivity.
  - apply (proj1 (proj2
      (decryptSimulationResult_rejects shown 0 cleartexts89 cleartexts89))
      7%N); reflexivity.
  - apply (proj1 (proj2 (proj2
      (decryptSimulationResult_rejects requested 0 cleartexts567 [])))).
    reflexivity.
Defined.

Lemma requestResultDecryption_guarded_witness :
  requestResultDecryption 8 simulated
    = Fail (Revert "Simulation not complete")
  ∧ requestResultDecryption 7 shown = Fail (Revert "Already revealed")
  ∧ prepareCiphertexts (simulationResults_at simulated 7) simulated
    = Ok [11; 12; 13]%N simulated
  ∧ requestToPatientId (transact (requestResultDecryption 7) simulated)
    = <[0%N := 7%N]> ∅.
Proof.
  split_and!.
  - apply (proj1 (requestResultDecryption_guarded simulated 8)).
    reflexivity.
  - apply (proj1 (proj2 (requestResultDecryption_guarded shown 7))).
    reflexivity.
  - exact (proj1 (proj2 (proj2 (requestResultDecryption_guarded simulated 7))
                    eq_refl eq_refl)).
  - exact (proj1 (proj2 (proj2 (proj2 (proj2 (proj2
             (requestResultDecryption_guarded simulated 7))
             eq_refl eq_refl))))).
Defined.

Lemma revealed_forever_counterexample :
  reachable shown
  ∧ decryptedResults_at shown 7 = mkDecryptedResult 5 [6; 7]%N true
  ∧ decryptedResults_at (run replay shown) 7
    = mkDecryptedResult 8 [9]%N true
  ∧ ¬ (∀ (st : State) (p : N) (cs : list Call),
         reachable st →
         isRevealed (decryptedResults_at st p) = true →
         decryptedResults_at (run cs st) p = decryptedResults_at st p).
Proof.
  assert (Hreach : reachable shown).
  { exists 0%N, history. unfold shown, requested, simulated.
    by rewrite <- !run_snoc. }
  assert (Hshown :
    decryptedResults_at shown 7 = mkDecryptedResult 5 [6; 7]%N true)
    by by_eval.
  assert (Hreplay :
    decryptedResults_at (run replay shown) 7 = mkDecryptedResult 8 [9]%N true)
    by by_eval.
  split_and!; [exact Hreach | exact Hshown | exact Hreplay |].
  intros Hall. specialize (Hall shown 7%N replay Hreach).
  rewrite Hshown, Hreplay in Hall. by specialize (Hall eq_refl).
Qed.

Lemma revealed_until_next_store_witness :
  decryptedResults
    (run [DecryptSimulationResult 0 cleartexts89 cleartexts89;
          RequestResultDecryption 7;
          StoreSimulationResult 9 1 []]%N shown) !! 7%N
  = decryptedResults shown !! 7%N.
Proof.
  apply (revealed_until_next_store shown 7); reflexivity.
Defined.

Lemma requestToPatientId_never_cleared_witness :
  requestToPatientId (run replay shown) !! 0%N = Some 7%N
  ∧ decryptSimulationResult 0 cleartexts89 cleartexts89
      (run unrelated shown)
    = Fail (Revert "Already revealed").
Proof.
  split.
  - rewrite (proj1 (proj1 (proj2 (proj2
               (requestToPatientId_never_cleared shown)))
               replay 0%N (not_elem_of_nil _))).
    by_eval.
  - assert (Hok : decryptSimulationResult 0 cleartexts567 cleartexts567
                    requested = Ok tt shown) by by_eval.
    destruct (proj2 (proj2 (proj2 (requestToPatientId_never_cleared requested)))
                0%N cleartexts567 cleartexts567 shown Hok)
      as (_ & _ & _ & _ & Hlater).
    apply (Hlater unrelated).
    + apply not_elem_of_nil.
    + reflexivity.
Defined.

Lemma patient_zero_never_revealed_witness :
  issuedId simulated0 0 = Some 0%N
  ∧ requestToPatientId (step simulated0 (RequestResultDecryption 0)) !! 0%N
    = Some 0%N
  ∧ decryptSimulationResult 0 cleartexts567 cleartexts567
      (step simulated0 (RequestResultDecryption 0))
    = Fail (Revert "Invalid request")
  ∧ decryptSimulationResult 0 cleartexts567 cleartexts567
      (run later (step simulated0 (RequestResultDecryption 0)))
    = Fail (Revert "Invalid request").
Proof.
  destruct (patient_zero_never_revealed simulated0
              (step simulated0 (RequestResultDecryption 0)))
    as (r & Hid & Hmap & Hnow & Hlater & _); [by_eval|].
  assert (Hr : r = 0%N).
  { assert (Hid0 : issuedId simulated0 0 = Some 0%N) by by_eval.
    congruence. }
  subst r. split_and!; [done | done | apply Hnow | apply Hlater].
  assert (Hids : issuedIds later
            (step simulated0 (RequestResultDecryption 0)) = [1%N])
    by by_eval.
  rewrite Hids. intros Hin. by apply list_elem_of_singleton in Hin.
Defined.

Lemma getDecryptedSimulationResult_total_witness :
  getDecryptedSimulationResult 8 simulated
    = Ok (0%N, [], false) simulated
  ∧ getEncryptedHealthData 8 simulated
    = Fail (Revert "Patient data not found")
  ∧ getEncryptedSimulationResult 8 simulated
    = Fail (Revert "Simulation not complete").
Proof.
  pose proof (getDecryptedSimulationResult_total simulated 8)
    as (_ & Hnone & _ & Hdata & Hsim).
  split_and!.
  - apply Hnone. reflexivity.
  - apply Hdata. reflexivity.
  - apply Hsim. reflexivity.
Defined.

End PrecisionMedTwinSpec.

(** ** Properties of the twin store *)

Module AppSpec.
Import App.

Section Proofs.

Context `{platform : Platform}.

Lemma dash_not_keys (a b : string) : a +:+ "-" +:+ b ≠ "keys".
Proof.
  destruct a as [|c1 [|c2 [|c3 [|c4 [|c5 a]]]]]; cbn; intros [=].
Qed.

Lemma twinKey_not_index (env : Env) : twinKey (makeTwinId env) ≠ "twin_keys".
Proof.
  unfold twinKey, makeTwinId. cbn. intros [= Hk].
  by apply dash_not_keys in Hk.
Qed.

(** After [submitTwin] got past its guards, the twin's key holds the
    encoded [twinData], whatever became of the index. *)
Lemma submitTwin_stores (env : Env) (d : NewTwinData)
    (store : gmap string bytes) :
  provider env = true → contractWithSigner env = true →
  (submitTwin env d store).1 !! twinKey (makeTwinId env)
  = Some (encode (JObj (twinData env d))).
Proof.
  intros Hp Hc. unfold submitTwin. rewrite Hp, Hc. cbn [negb].
  cbv zeta. destruct (push _ _); cbn [fst]; unfold setData.
  - rewrite lookup_insert_ne by (apply not_eq_sym, twinKey_not_index).
    by rewrite lookup_insert_eq.
  - by rewrite lookup_insert_eq.
Qed.

(** C8. A twin created by [submitTwin] with scale "gene" is stored with
    status "pending"; an [activateTwin] on its id that follows with no
    write in between succeeds and writes back, under the same key, a
    record whose status is "active" and whose data, timestamp, owner and
    scale, as every field but the status, are those of the stored record;
    no other key of the store changes. *)
Theorem activate_after_submit (env env' : Env) (d : NewTwinData)
    (store : gmap string bytes) :
  let twinId := makeTwinId env in
  let stored := twinData env d in
  let store1 := (submitTwin env d store).1 in
  provider env = true → contractWithSigner env = true →
  provider env' = true → contractWithSigner env' = true →
  scale d = "gene" →
  encode (JObj stored) ≠ [] →
  decode (encode (JObj stored)) = Some (JObj stored) →
  getData (twinKey twinId) store1 = encode (JObj stored)
  ∧ stored !! "status" = Some (JStr "pending")
  ∧ stored !! "scale" = Some (JStr "gene")
  ∧ ∃ updated,
      activateTwin env' twinId store1
      = (<[twinKey twinId := encode (JObj updated)]> store1, Done)
      ∧ updated !! "status" = Some (JStr "active")
      ∧ updated !! "data" = stored !! "data"
      ∧ updated !! "timestamp" = stored !! "timestamp"
      ∧ updated !! "owner" = stored !! "owner"
      ∧ updated !! "scale" = Some (JStr "gene")
      ∧ (∀ k, k ≠ "status" → updated !! k = stored !! k)
      ∧ (∀ key, key ≠ twinKey twinId →
           (activateTwin env' twinId store1).1 !! key = store1 !! key).
Proof.
  intros twinId stored store1 Hp Hc Hp' Hc' Hscale Hne Hrt.
  assert (Hget : getData (twinKey twinId) store1 = encode (JObj stored)).
  { unfold getData, store1, twinId. by rewrite submitTwin_stores. }
  assert (Hact : activateTwin env' twinId store1
    = (<[twinKey twinId := encode (JObj (<["status" := JStr "active"]> stored))]>
         store1, Done)).
  { unfold activateTwin. rewrite Hp', Hc', Hget, Hrt. cbn [negb].
    rewrite bool_decide_eq_false_2; [done|].
    by destruct (encode (JObj stored)). }
  split_and!; try done.
  - unfold stored, twinData. by rewrite Hscale.
  - exists (<["status" := JStr "active"]> stored). split_and!; try done.
    + unfold stored, twinData. by rewrite Hscale.
    + intros k Hk. by rewrite lookup_insert_ne.
    + intros key Hkey. rewrite Hact. cbn [fst].
      by rewrite lookup_insert_ne.
Qed.

End Proofs.

Import PlainJS Sample.
#[local] Existing Instance plainPlatform.

Lemma activate_after_submit_witness :
  let twinId := makeTwinId browser in
  let stored := twinData browser geneTwin in
  let store1 := (submitTwin browser geneTwin ∅).1 in
  getData (twinKey twinId) store1 = encode (JObj stored)
  ∧ stored !! "status" = Some (JStr "pending")
  ∧ stored !! "scale" = Some (JStr "gene")
  ∧ ∃ updated,
      activateTwin browser twinId store1
      = (<[twinKey twinId := encode (JObj updated)]> store1, Done)
      ∧ updated !! "status" = Some (JStr "active")
      ∧ updated !! "data" = stored !! "data"
      ∧ updated !! "timestamp" = stored !! "timestamp"
      ∧ updated !! "owner" = stored !! "owner"
      ∧ updated !! "scale" = Some (JStr "gene")
      ∧ (∀ k, k ≠ "status" → updated !! k = stored !! k)
      ∧ (∀ key, key ≠ twinKey twinId →
           (activateTwin browser twinId store1).1 !! key = store1 !! key).
Proof.
  apply (activate_after_submit browser browser geneTwin ∅).
  - reflexivity.
  - reflexivity.
  - reflexivity.
  - reflexivity.
  - reflexivity.
  - vm_compute. discriminate.
  - by_eval.
Defined.

End AppSpec.

(** ** Further properties of the contract *)

Module PrecisionMedTwinMore.
Import PrecisionMedTwin PrecisionMedTwinSpec.

Section Proofs.

Context `{fhe : FHE, abi : ABI}.

Ltac mrun :=
  cbv [mbind M_bind mret M_ret get modify fail require]; cbn beta iota.

Ltac step_of f := unfold step, transact; cbn [call]; unfold f; mrun.

(** X1. Health data read back. After [submitHealthData] the getter
    returns the four vectors just submitted, provided the block timestamp
    was positive; submitted at timestamp 0 the record is stored but reads
    as not found. The record replaces any earlier one of the patient, and
    no other patient's record changes. *)
Theorem submitHealthData_read_back (st : State) (now p : N)
    (g c o b : list euint32) :
  let st' := step st (SubmitHealthData now p g c o b) in
  getEncryptedHealthData p st'
  = (if bool_decide (0 < now)%N then Ok (g, c, o, b) st'
     else Fail (Revert "Patient data not found"))
  ∧ patientData st' !! p = Some (mkEncryptedHealthData p g c o b now)
  ∧ (∀ q, q ≠ p → patientData st' !! q = patientData st !! q).
Proof.
  intros st'.
  assert (Hp : patientData st' !! p
               = Some (mkEncryptedHealthData p g c o b now)).
  { unfold st'. step_of @submitHealthData. unfold emit. mrun. cbn.
    by rewrite lookup_insert_eq. }
  split_and!; [|done|].
  - unfold getEncryptedHealthData, patientData_at. mrun. rewrite Hp. cbn.
    by destruct (bool_decide _).
  - intros q Hq. unfold st'. step_of @submitHealthData. unfold emit. mrun.
    cbn. by rewrite lookup_insert_ne.
Qed.

(** X2. Simulation result read back. [storeSimulationResult] succeeds for
    any patient, with or without submitted health data; afterwards the
    encrypted getter returns the stored score and vector, the simulation
    is complete, and the results of other patients are as before. *)
Theorem storeSimulationResult_read_back (st : State) (p : N)
    (risk : euint32) (drugs : list euint32) :
  let st' := step st (StoreSimulationResult p risk drugs) in
  storeSimulationResult p risk drugs st = Ok tt st'
  ∧ getEncryptedSimulationResult p st' = Ok (risk, drugs) st'
  ∧ isComplete (simulationResults_at st' p) = true
  ∧ (∀ q, q ≠ p →
       simulationResults st' !! q = simulationResults st !! q
       ∧ decryptedResults st' !! q = decryptedResults st !! q).
Proof.
  intros st'.
  assert (Hp : simulationResults st' !! p
               = Some (mkSimulationResult risk drugs true)).
  { unfold st'. step_of @storeSimulationResult. unfold emit. mrun. cbn.
    by rewrite lookup_insert_eq. }
  split_and!.
  - done.
  - unfold getEncryptedSimulationResult, simulationResults_at. mrun.
    by rewrite Hp.
  - unfold simulationResults_at. by rewrite Hp.
  - intros q Hq. unfold st'. step_of @storeSimulationResult. unfold emit.
    mrun. cbn. by rewrite !lookup_insert_ne.
Qed.

(** X3. Unknown patient. For a patient without a health record,
    [requestSimulation], [predictDiseaseRisk] and [predictDrugResponse]
    all revert with "Patient data not found", and the failed
    [requestSimulation] leaves the state, its event log included, as it
    was. *)
Theorem unknown_patient_reverts (st : State) (p k : N) :
  patientData st !! p = None →
  requestSimulation p st = Fail (Revert "Patient data not found")
  ∧ predictDiseaseRisk p st = Fail (Revert "Patient data not found")
  ∧ predictDrugResponse p k st = Fail (Revert "Patient data not found")
  ∧ step st (RequestSimulation p) = st.
Proof.
  intros Hn.
  assert (Hreq : requestSimulation p st
                 = Fail (Revert "Patient data not found")).
  { unfold requestSimulation, patientData_at. mrun. by rewrite Hn. }
  split_and!; [done| | |].
  - unfold predictDiseaseRisk, patientData_at. mrun. by rewrite Hn.
  - unfold predictDrugResponse, patientData_at. mrun. by rewrite Hn.
  - unfold step. cbn [call]. by apply transact_fail with (e := Revert "Patient data not found").
Qed.

(** X4. Empty vectors. When the genomic model has no parameters, or the
    patient's genomic vector is empty, the predicted risk is the
    encryption of 0, and the drug response is that plus the selected
    biomarker, or the encryption of 0 itself when the index is out of
    range. *)
Theorem prediction_of_empty_vectors (st : State) (p k : N) :
  (0 < timestamp (patientData_at st p))%N →
  genomicModelParams st = [] ∨ genomicData (patientData_at st p) = [] →
  predictDiseaseRisk p st = Ok (FHE_asEuint32 0) st
  ∧ predictDrugResponse p k st
    = Ok (match biomarkers (patientData_at st p) !! N.to_nat k with
          | Some b => FHE_add (FHE_asEuint32 0) b
          | None => FHE_asEuint32 0
          end) st.
Proof.
  intros Hts Hempty.
  assert (Hdot : encryptedDot (genomicModelParams st)
                   (genomicData (patientData_at st p)) = FHE_asEuint32 0).
  { unfold encryptedDot. destruct Hempty as [-> | ->]; [done|].
    by destruct (genomicModelParams st). }
  split.
  - by rewrite predictDiseaseRisk_eq, Hdot.
  - unfold predictDrugResponse.
    erewrite bind_ok by reflexivity.
    erewrite bind_ok; last first.
    { unfold require. rewrite bool_decide_eq_true_2 by done. reflexivity. }
    erewrite bind_ok by apply genomic_range.
    fold (encryptedDot (genomicModelParams st)
            (genomicData (patientData_at st p))). rewrite Hdot.
    set (bio := biomarkers (patientData_at st p)).
    destruct (decide (k < N.of_nat (length bio))%N) as [Hlt|Hge].
    + destruct (lookup_lt_is_Some_2 bio (N.to_nat k)) as [b Hb]; [lia|].
      rewrite Hb. by erewrite bind_ok by (by apply index_lookup).
    + rewrite lookup_ge_None_2 by lia. done.
Qed.

(** The genomic fold that both predictions compute, as a function of
    what it reads. *)
Lemma predictDrugResponse_eq (st : State) (p k : N) :
  (0 < timestamp (patientData_at st p))%N →
  predictDrugResponse p k st
  = Ok (let dot := encryptedDot (genomicModelParams st)
                     (genomicData (patientData_at st p)) in
        match biomarkers (patientData_at st p) !! N.to_nat k with
        | Some b => FHE_add dot b
        | None => dot
        end) st.
Proof.
  intros Hts. unfold predictDrugResponse.
  erewrite bind_ok by reflexivity.
  erewrite bind_ok; last first.
  { unfold require. rewrite bool_decide_eq_true_2 by done. reflexivity. }
  erewrite bind_ok by apply genomic_range.
  set (bio := biomarkers (patientData_at st p)). cbn zeta.
  destruct (decide (k < N.of_nat (length bio))%N) as [Hlt|Hge].
  - destruct (lookup_lt_is_Some_2 bio (N.to_nat k)) as [b Hb]; [lia|].
    rewrite Hb. by erewrite bind_ok by (by apply index_lookup).
  - rewrite lookup_ge_None_2 by lia. done.
Qed.

(** X5. What the predictions read. The predictions of a patient depend
    on the genomic model parameters, the patient's genomic vector and
    biomarkers only: replacing the cellular or organ model, or
    resubmitting the patient's data with other cellular and organ
    vectors, returns the same values. *)
Theorem predictions_ignore_cellular_and_organ (st : State) (p k : N)
    (risk response : euint32) :
  predictDiseaseRisk p st = Ok risk st →
  predictDrugResponse p k st = Ok response st →
  ∀ c : Call,
    (∃ ps, c = UpdateCellularModel ps)
    ∨ (∃ ps, c = UpdateOrganModel ps)
    ∨ (∃ now cellular organ, (0 < now)%N ∧
         c = SubmitHealthData now p (genomicData (patientData_at st p))
               cellular organ (biomarkers (patientData_at st p))) →
    predictDiseaseRisk p (step st c) = Ok risk (step st c)
    ∧ predictDrugResponse p k (step st c) = Ok response (step st c).
Proof.
  intros Hrisk Hresp c Hc.
  assert (Hts : (0 < timestamp (patientData_at st p))%N).
  { unfold predictDiseaseRisk in Hrisk. revert Hrisk. mrun.
    destruct (bool_decide _) eqn:Hb; [|done].
    by apply bool_decide_eq_true in Hb. }
  rewrite predictDiseaseRisk_eq in Hrisk by done.
  rewrite predictDrugResponse_eq in Hresp by done.
  injection Hrisk as <-. injection Hresp as <-.
  assert (Hsame : (0 < timestamp (patientData_at (step st c) p))%N
    ∧ genomicModelParams (step st c) = genomicModelParams st
    ∧ genomicData (patientData_at (step st c) p)
      = genomicData (patientData_at st p)
    ∧ biomarkers (patientData_at (step st c) p)
      = biomarkers (patientData_at st p)).
  { destruct Hc as [[ps ->] | [[ps ->] | (now & ce & og & Hnow & ->)]];
      try done.
    unfold patientData_at. step_of @submitHealthData. unfold emit. mrun. cbn.
    by rewrite lookup_insert_eq. }
  destruct Hsame as (Hts' & Hg & Hd & Hb).
  rewrite predictDiseaseRisk_eq, predictDrugResponse_eq by done.
  cbn zeta. by rewrite Hg, Hd, Hb.
Qed.

(** X6. Who writes what. A call changes a storage variable only if it is
    one of that variable's writers: health records are written by
    [submitHealthData] alone, simulation results by
    [storeSimulationResult] alone, each model vector by its update and
    [setModelParameters], the request map and the oracle's storage by
    [requestResultDecryption] alone, and decrypted records by
    [storeSimulationResult] and the callback, which touch the record of
    their own patient and no other. *)
Theorem writers (st : State) (c : Call) :
  match c with
  | SubmitHealthData _ _ _ _ _ _ => True
  | _ => patientData (step st c) = patientData st
  end
  ∧ match c with
    | StoreSimulationResult _ _ _ => True
    | _ => simulationResults (step st c) = simulationResults st
    end
  ∧ match c with
    | SetModelParameters _ _ _ | UpdateGenomicModel _ => True
    | _ => genomicModelParams (step st c) = genomicModelParams st
    end
  ∧ match c with
    | SetModelParameters _ _ _ | UpdateCellularModel _ => True
    | _ => cellularModelParams (step st c) = cellularModelParams st
    end
  ∧ match c with
    | SetModelParameters _ _ _ | UpdateOrganModel _ => True
    | _ => organModelParams (step st c) = organModelParams st
    end
  ∧ match c with
    | RequestResultDecryption _ => True
    | _ => requestToPatientId (step st c) = requestToPatientId st
           ∧ fheStore (step st c) = fheStore st
    end
  ∧ match c with
    | StoreSimulationResult p _ _ =>
        ∀ q, q ≠ p → decryptedResults (step st c) !! q
                     = decryptedResults st !! q
    | DecryptSimulationResult r _ _ =>
        ∀ q, q ≠ requestToPatientId_at st r →
             decryptedResults (step st c) !! q = decryptedResults st !! q
    | _ => decryptedResults (step st c) = decryptedResults st
    end.
Proof.
  destruct c.
  - by split_and!.
  - by split_and!.
  - step_of @requestSimulation. by destruct (bool_decide _).
  - split_and!; try done. intros q Hq.
    step_of @storeSimulationResult. unfold emit. mrun. cbn.
    by rewrite lookup_insert_ne.
  - unfold step, transact. cbn [call].
    rewrite requestResultDecryption_eq. cbn zeta.
    destruct (isComplete _); [|done].
    by destruct (isRevealed (decryptedResults_at st p)).
  - unfold step, transact. cbn [call].
    rewrite decryptSimulationResult_eq. cbn zeta.
    generalize (requestToPatientId_at st requestId). intros p.
    destruct (bool_decide _); [done|].
    destruct (isRevealed _); [done|]. destruct (negb _); [done|].
    destruct (abi_decode_uint32s _) as [[|r0 rest]|]; try done.
    split_and!; try done. intros q Hq. cbn. by rewrite lookup_insert_ne.
  - by split_and!.
  - by split_and!.
  - by split_and!.
Qed.

(** The events a call adds to the log. *)
Lemma step_events (st : State) (c : Call) :
  events (step st c) = events st ++
    match c, call c st with
    | SubmitHealthData now p _ _ _ _, _ => [DataSubmitted p now]
    | RequestSimulation p, Ok _ _ => [SimulationRequested p]
    | StoreSimulationResult p _ _, _ => [SimulationCompleted p]
    | DecryptSimulationResult r _ _, Ok _ _ =>
        [ResultRevealed (requestToPatientId_at st r)]
    | _, _ => []
    end.
Proof.
  destruct c; try (unfold step, transact; cbn; by rewrite ?app_nil_r).
  - step_of @requestSimulation. destruct (bool_decide _); cbn;
      by rewrite ?app_nil_r.
  - unfold step, transact. cbn [call].
    rewrite requestResultDecryption_eq. cbn zeta.
    destruct (isComplete _); [|by rewrite app_nil_r].
    destruct (isRevealed (decryptedResults_at st p)); cbn;
      by rewrite app_nil_r.
  - unfold step, transact. cbn [call].
    rewrite decryptSimulationResult_eq. cbn zeta.
    destruct (bool_decide _); [by rewrite app_nil_r|].
    destruct (isRevealed _); [by rewrite app_nil_r|].
    destruct (negb _); [by rewrite app_nil_r|].
    destruct (abi_decode_uint32s _) as [[|r0 rest]|];
      cbn; by rewrite ?app_nil_r.
Qed.

(** X7. The event log. A call appends to the log exactly the event of
    its function when it succeeds ([DataSubmitted], [SimulationRequested],
    [SimulationCompleted], [ResultRevealed] with the patient the request
    id maps to) and nothing when it fails or is another function; along
    any sequence of calls the log only grows at its end. *)
Theorem event_log_grows (st : State) :
  (∀ c, events (step st c) = events st ++
      match c, call c st with
      | SubmitHealthData now p _ _ _ _, _ => [DataSubmitted p now]
      | RequestSimulation p, Ok _ _ => [SimulationRequested p]
      | StoreSimulationResult p _ _, _ => [SimulationCompleted p]
      | DecryptSimulationResult r _ _, Ok _ _ =>
          [ResultRevealed (requestToPatientId_at st r)]
      | _, _ => []
      end)
  ∧ (∀ cs, events st `prefix_of` events (run cs st)).
Proof.
  split; [apply step_events|].
  intros cs. revert st. induction cs as [|c cs IH]; intros st; [done|].
  rewrite run_cons. etrans; [|apply IH].
  rewrite step_events. by apply prefix_app_r.
Qed.

(** *** Invariants of the reachable states *)

Lemma step_patientData (st : State) (c : Call) :
  patientData (step st c) =
    match c with
    | SubmitHealthData now p g ce o b =>
        <[p := mkEncryptedHealthData p g ce o b now]> (patientData st)
    | _ => patientData st
    end.
Proof.
  destruct c; try done.
  - step_of @requestSimulation. by destruct (bool_decide _).
  - unfold step, transact. cbn [call].
    rewrite requestResultDecryption_eq. cbn zeta.
    destruct (isComplete _); [|done].
    by destruct (isRevealed (decryptedResults_at st p)).
  - unfold step, transact. cbn [call].
    rewrite decryptSimulationResult_eq. cbn zeta.
    destruct (bool_decide _); [done|].
    destruct (isRevealed _); [done|]. destruct (negb _); [done|].
    by destruct (abi_decode_uint32s _) as [[|r0 rest]|].
Qed.

Lemma step_simulationResults (st : State) (c : Call) :
  simulationResults (step st c) =
    match c with
    | StoreSimulationResult p risk drugs =>
        <[p := mkSimulationResult risk drugs true]> (simulationResults st)
    | _ => simulationResults st
    end.
Proof.
  destruct c; try done.
  - step_of @requestSimulation. by destruct (bool_decide _).
  - unfold step, transact. cbn [call].
    rewrite requestResultDecryption_eq. cbn zeta.
    destruct (isComplete _); [|done].
    by destruct (isRevealed (decryptedResults_at st p)).
  - unfold step, transact. cbn [call].
    rewrite decryptSimulationResult_eq. cbn zeta.
    destruct (bool_decide _); [done|].
    destruct (isRevealed _); [done|]. destruct (negb _); [done|].
    by destruct (abi_decode_uint32s _) as [[|r0 rest]|].
Qed.

(** A call leaves the decrypted record of [q] alone, resets it (a
    [storeSimulationResult] for [q]), or reveals it (a callback whose id
    maps to [q], in a state where [q] is not revealed). *)
Lemma step_decryptedResults (st : State) (c : Call) (q : N) :
  decryptedResults (step st c) !! q = decryptedResults st !! q
  ∨ ((∃ risk drugs, c = StoreSimulationResult q risk drugs)
     ∧ decryptedResults (step st c) !! q = Some (mkDecryptedResult 0 [] false))
  ∨ (∃ r cl pr r0 rest,
       c = DecryptSimulationResult r cl pr
       ∧ requestToPatientId st !! r = Some q
       ∧ call c st = Ok tt (step st c)
       ∧ decryptedResults (step st c) !! q
         = Some (mkDecryptedResult r0 rest true)).
Proof.
  destruct c; try (by left).
  - left. step_of @requestSimulation. by destruct (bool_decide _).
  - destruct (decide (p = q)) as [->|Hne].
    + right; left. split; [by eauto|].
      step_of @storeSimulationResult. unfold emit. mrun. cbn.
      by rewrite lookup_insert_eq.
    + left. step_of @storeSimulationResult. unfold emit. mrun. cbn.
      by rewrite lookup_insert_ne.
  - left. unfold step, transact. cbn [call].
    rewrite requestResultDecryption_eq. cbn zeta.
    destruct (isComplete _); [|done].
    by destruct (isRevealed (decryptedResults_at st p)).
  - unfold step, transact. cbn [call].
    rewrite decryptSimulationResult_eq. cbn zeta.
    unfold requestToPatientId_at.
    destruct (requestToPatientId st !! requestId) as [p|] eqn:Hr;
      cbn [default]; [|by left].
    destruct (bool_decide _); [by left|].
    destruct (isRevealed _); [by left|]. destruct (negb _); [by left|].
    destruct (abi_decode_uint32s _) as [[|r0 rest]|]; try (by left).
    destruct (decide (p = q)) as [->|Hne].
    + right; right. exists requestId, cleartexts, proof, r0, rest.
      split_and!; try done. cbn. by rewrite lookup_insert_eq.
    + left. cbn. by rewrite lookup_insert_ne.
Qed.

Lemma reachable_ind (P : State → Prop) :
  (∀ fhe0, P (deployed fhe0)) →
  (∀ st c, reachable st → P st → P (step st c)) →
  ∀ st, reachable st → P st.
Proof.
  intros H0 Hstep st (fhe0 & cs & ->).
  induction cs as [|c cs IH] using rev_ind; [apply H0|].
  rewrite run_snoc. apply Hstep; [by exists fhe0, cs | done].
Qed.

(** X8. The key of a health record. In every reachable state the
    [patientId] field of a stored health record is the key it is stored
    under. *)
Theorem patientId_is_key (st : State) (p : N) (d : EncryptedHealthData) :
  reachable st →
  patientData st !! p = Some d →
  patientId d = p.
Proof.
  intros Hreach. revert p d. revert st Hreach.
  apply (reachable_ind (λ st, ∀ p d, patientData st !! p = Some d →
                                     patientId d = p)); [done|].
  intros st c _ IH p d Hd.
  rewrite step_patientData in Hd. destruct c; try by apply IH.
  destruct (decide (p0 = p)) as [->|Hne].
  - rewrite lookup_insert_eq in Hd. by injection Hd as <-.
  - rewrite lookup_insert_ne in Hd by done. by apply IH.
Qed.

(** X9. Decryption follows simulation. In every reachable state, a
    request id recorded in the request map maps to a patient whose
    simulation is complete, and a patient whose decrypted result is
    revealed has a complete simulation. *)
Theorem revealed_implies_complete (st : State) :
  reachable st →
  (∀ r p, requestToPatientId st !! r = Some p →
          isComplete (simulationResults_at st p) = true)
  ∧ (∀ p, isRevealed (decryptedResults_at st p) = true →
          isComplete (simulationResults_at st p) = true).
Proof.
  revert st.
  apply (reachable_ind (λ st,
    (∀ r p, requestToPatientId st !! r = Some p →
            isComplete (simulationResults_at st p) = true)
    ∧ (∀ p, isRevealed (decryptedResults_at st p) = true →
            isComplete (simulationResults_at st p) = true))); [done|].
  intros st c _ [IHr IHp].
  assert (Hmono : ∀ p, isComplete (simulationResults_at st p) = true →
                       isComplete (simulationResults_at (step st c) p) = true).
  { intros p Hp. unfold simulationResults_at in *.
    rewrite step_simulationResults. destruct c; try done.
    destruct (decide (p0 = p)) as [->|Hne].
    - by rewrite lookup_insert_eq.
    - by rewrite lookup_insert_ne. }
  split.
  - intros r p Hr. rewrite step_requestToPatientId in Hr.
    destruct c; try (by apply Hmono, (IHr r)).
    destruct (call _ st) eqn:Hcall; [|by apply Hmono, (IHr r)].
    rewrite issuedId_eq in Hr.
    set (rid := (FHE_requestDecryption _ _ _).1) in Hr.
    destruct (decide (rid = r)) as [->|Hne].
    + rewrite lookup_insert_eq in Hr. injection Hr as ->.
      apply Hmono. cbn [call] in Hcall.
      rewrite requestResultDecryption_eq in Hcall. cbn zeta in Hcall.
      by destruct (isComplete _).
    + rewrite lookup_insert_ne in Hr by done. by apply Hmono, (IHr r).
  - intros p Hp. unfold decryptedResults_at in Hp.
    destruct (step_decryptedResults st c p)
      as [Heq | [[(risk & drugs & ->) Heq]
                | (r & cl & pr & r0 & rest & -> & Hr & _ & Heq)]].
    + rewrite Heq in Hp. by apply Hmono, IHp.
    + by rewrite Heq in Hp.
    + by apply Hmono, (IHr r).
Qed.

Ltac event_cases c st H :=
  destruct c; try destruct (call _ st);
  first [ by apply elem_of_nil in H
        | apply list_elem_of_singleton in H; simplify_eq ].

Lemma step_DataSubmitted (st : State) (c : Call) (p ts : N) :
  DataSubmitted p ts ∈ events (step st c)
  ↔ DataSubmitted p ts ∈ events st
    ∨ ∃ g ce o b, c = SubmitHealthData ts p g ce o b.
Proof.
  rewrite step_events, elem_of_app. split.
  - intros [H|H]; [by left|]. right. event_cases c st H; by eauto.
  - intros [H|(g & ce & o & b & ->)]; [by left|].
    right. by apply list_elem_of_singleton.
Qed.

Lemma step_SimulationCompleted (st : State) (c : Call) (p : N) :
  SimulationCompleted p ∈ events (step st c)
  ↔ SimulationCompleted p ∈ events st
    ∨ ∃ risk drugs, c = StoreSimulationResult p risk drugs.
Proof.
  rewrite step_events, elem_of_app. split.
  - intros [H|H]; [by left|]. right. event_cases c st H; by eauto.
  - intros [H|(risk & drugs & ->)]; [by left|].
    right. by apply list_elem_of_singleton.
Qed.

Lemma step_ResultRevealed (st : State) (c : Call) (p : N) :
  ResultRevealed p ∈ events st
  ∨ (∃ r cl pr, c = DecryptSimulationResult r cl pr
                ∧ call c st = Ok tt (step st c)
                ∧ requestToPatientId_at st r = p) →
  ResultRevealed p ∈ events (step st c).
Proof.
  rewrite step_events, elem_of_app.
  intros [Hin | (r & cl & pr & -> & Hok & <-)]; [by left|].
  right. rewrite Hok. by apply list_elem_of_singleton.
Qed.

(** X10. The log tells the state. In every reachable state a patient
    has a health record exactly when the log holds a [DataSubmitted]
    event of that patient, and the record's timestamp is logged with it;
    a patient's simulation is complete exactly when the log holds its
    [SimulationCompleted] event; and a patient whose decrypted result is
    revealed has a [ResultRevealed] event in the log. *)
Theorem log_tells_state (st : State) :
  reachable st →
  (∀ p d, patientData st !! p = Some d →
          DataSubmitted p (timestamp d) ∈ events st)
  ∧ (∀ p ts, DataSubmitted p ts ∈ events st → is_Some (patientData st !! p))
  ∧ (∀ p, isComplete (simulationResults_at st p) = true
          ↔ SimulationCompleted p ∈ events st)
  ∧ (∀ p, isRevealed (decryptedResults_at st p) = true →
          ResultRevealed p ∈ events st).
Proof.
  revert st.
  apply (reachable_ind (λ st,
    (∀ p d, patientData st !! p = Some d →
            DataSubmitted p (timestamp d) ∈ events st)
    ∧ (∀ p ts, DataSubmitted p ts ∈ events st →
               is_Some (patientData st !! p))
    ∧ (∀ p, isComplete (simulationResults_at st p) = true
            ↔ SimulationCompleted p ∈ events st)
    ∧ (∀ p, isRevealed (decryptedResults_at st p) = true →
            ResultRevealed p ∈ events st))).
  { intros fhe0. split_and!; try done.
    - intros p ts Hin. by apply elem_of_nil in Hin.
    - intros p. split; [done|]. intros Hin. by apply elem_of_nil in Hin. }
  intros st c _ (IHd & IHs & IHc & IHr). split_and!.
  - intros p d Hd. apply step_DataSubmitted.
    rewrite step_patientData in Hd. destruct c; try (left; by apply IHd).
    destruct (decide (p0 = p)) as [->|Hne].
    + rewrite lookup_insert_eq in Hd. injection Hd as <-. right. by eauto.
    + rewrite lookup_insert_ne in Hd by done. left. by apply IHd.
  - intros p ts Hin. apply step_DataSubmitted in Hin.
    rewrite step_patientData.
    destruct Hin as [Hin | (g & ce & o & b & ->)].
    + apply IHs in Hin. destruct c; try done.
      by apply lookup_insert_is_Some'; right.
    + by rewrite lookup_insert_eq.
  - intros p. rewrite step_SimulationCompleted, <- IHc.
    unfold simulationResults_at. rewrite step_simulationResults.
    split.
    + intros Hp. destruct c; try (by left).
      destruct (decide (p0 = p)) as [->|Hne]; [right; by eauto|].
      left. by rewrite lookup_insert_ne in Hp.
    + intros [Hp | (risk & drugs & ->)].
      * destruct c; try done.
        destruct (decide (p0 = p)) as [->|Hne].
        -- by rewrite lookup_insert_eq.
        -- by rewrite lookup_insert_ne.
      * by rewrite lookup_insert_eq.
  - intros p Hp. apply step_ResultRevealed. unfold decryptedResults_at in Hp.
    destruct (step_decryptedResults st c p)
      as [Heq | [[(risk & drugs & ->) Heq]
                | (r & cl & pr & r0 & rest & -> & Hr & Hok & Heq)]].
    + rewrite Heq in Hp. left. by apply IHr.
    + by rewrite Heq in Hp.
    + right. exists r, cl, pr. split_and!; try done.
      unfold requestToPatientId_at. by rewrite Hr.
Qed.

(** X11. An empty cleartext array. A callback that passes the request,
    reveal and signature checks but whose cleartext decodes to the empty
    array fails with an index panic on [results[0]], and the state stays
    as it was: nothing is revealed. *)
Theorem empty_cleartext_panics (st : State) (r : N) (cl pr : bytes) :
  requestToPatientId_at st r ≠ 0%N →
  isRevealed (decryptedResults_at st (requestToPatientId_at st r)) = false →
  FHE_checkSignatures (fheStore st) r cl pr = true →
  abi_decode_uint32s cl = Some [] →
  decryptSimulationResult r cl pr st = Fail (Panic PANIC_INDEX)
  ∧ step st (DecryptSimulationResult r cl pr) = st.
Proof.
  intros Hp Hrev Hsig Hdec.
  assert (Hfail : decryptSimulationResult r cl pr st
                  = Fail (Panic PANIC_INDEX)).
  { rewrite decryptSimulationResult_eq. cbn zeta.
    by rewrite bool_decide_eq_false_2, Hrev, Hsig, Hdec. }
  split; [done|]. unfold step. cbn [call]. by rewrite (transact_fail _ _ _ Hfail).
Qed.

(** X12. A pending request does not block another. After a successful
    [requestResultDecryption] for a patient, a second one for the same
    patient succeeds as well; when the oracle gives the two requests
    different ids, both ids map to the patient afterwards. *)
Theorem request_can_be_repeated (st st1 : State) (p : N) :
  requestResultDecryption p st = Ok tt st1 →
  ∃ st2,
    requestResultDecryption p st1 = Ok tt st2
    ∧ ∀ r1 r2, issuedId st p = Some r1 → issuedId st1 p = Some r2 →
               r1 ≠ r2 →
               requestToPatientId st2 !! r1 = Some p
               ∧ requestToPatientId st2 !! r2 = Some p.
Proof.
  intros Hok. rewrite requestResultDecryption_eq in Hok. cbn zeta in Hok.
  destruct (isComplete (simulationResults_at st p)) eqn:Hc; [|done].
  destruct (isRevealed (decryptedResults_at st p)) eqn:Hr; [done|].
  cbn in Hok. injection Hok as <-.
  rewrite requestResultDecryption_eq. cbn zeta.
  change (simulationResults_at (set_requestToPatientId ?a p (set_fheStore ?b st)) p)
    with (simulationResults_at st p).
  change (decryptedResults_at (set_requestToPatientId ?a p (set_fheStore ?b st)) p)
    with (decryptedResults_at st p).
  rewrite Hc, Hr. cbn [negb]. eexists. split; [done|].
  intros r1 r2 Hr1 Hr2 Hne. rewrite issuedId_eq in Hr1, Hr2.
  injection Hr1 as <-. injection Hr2 as <-. cbn. split.
  - rewrite lookup_insert_ne by done. by rewrite lookup_insert_eq.
  - by rewrite lookup_insert_eq.
Qed.

Lemma after_store (st : State) (p : N) (risk : euint32)
    (drugs : list euint32) :
  let st1 := step st (StoreSimulationResult p risk drugs) in
  simulationResults_at st1 p = mkSimulationResult risk drugs true
  ∧ decryptedResults_at st1 p = mkDecryptedResult 0 [] false.
Proof.
  intros st1. split.
  - unfold simulationResults_at, st1. step_of @storeSimulationResult.
    unfold emit. mrun. cbn. by rewrite lookup_insert_eq.
  - unfold decryptedResults_at, st1. step_of @storeSimulationResult.
    unfold emit. mrun. cbn. by rewrite lookup_insert_eq.
Qed.

(** X13. A new simulation result re-arms decryption. Right after
    [storeSimulationResult] for a patient, whatever the state before,
    even one in which the patient's result was revealed, the patient's
    decrypted record is unrevealed and [requestResultDecryption] for the
    patient succeeds, sending the oracle the new score and drug responses
    in stored order. *)
Theorem store_rearms_decryption (st : State) (p : N) (risk : euint32)
    (drugs : list euint32) :
  let st1 := step st (StoreSimulationResult p risk drugs) in
  let out := FHE_requestDecryption (fheStore st1)
               (FHE_toBytes32 risk :: (FHE_toBytes32 <$> drugs)) selector in
  isRevealed (decryptedResults_at st1 p) = false
  ∧ requestResultDecryption p st1
    = Ok tt (set_requestToPatientId out.1 p (set_fheStore out.2 st1)).
Proof.
  intros st1 out. destruct (after_store st p risk drugs) as [Hs Hd].
  fold st1 in Hs, Hd. split; [by rewrite Hd|].
  rewrite requestResultDecryption_eq. cbn zeta. by rewrite Hs, Hd.
Qed.

(** X14. From simulation result to cleartext. For a patient other than
    0: store a simulation result, request its decryption, and let the
    callback arrive with the issued request id, a proof the library
    accepts and a cleartext decoding to [r0 :: rest]. Then the decrypted
    getter returns [(r0, rest, true)], the encrypted getter still returns
    the stored ciphertexts, and a further decryption request is refused
    as already revealed. *)
Theorem store_request_reveal (st : State) (p : N) (risk : euint32)
    (drugs : list euint32) (cl pr : bytes) (r0 : N) (rest : list N) :
  let st1 := step st (StoreSimulationResult p risk drugs) in
  let out := FHE_requestDecryption (fheStore st1)
               (FHE_toBytes32 risk :: (FHE_toBytes32 <$> drugs)) selector in
  let st2 := step st1 (RequestResultDecryption p) in
  let st3 := step st2 (DecryptSimulationResult out.1 cl pr) in
  p ≠ 0%N →
  FHE_checkSignatures (fheStore st2) out.1 cl pr = true →
  abi_decode_uint32s cl = Some (r0 :: rest) →
  getDecryptedSimulationResult p st3 = Ok (r0, rest, true) st3
  ∧ getEncryptedSimulationResult p st3 = Ok (risk, drugs) st3
  ∧ requestResultDecryption p st3 = Fail (Revert "Already revealed").
Proof.
  intros st1 out st2 st3 Hp Hsig Hdec.
  destruct (after_store st p risk drugs) as [Hs Hd]. fold st1 in Hs, Hd.
  assert (Hst2 : st2 = set_requestToPatientId out.1 p (set_fheStore out.2 st1)).
  { unfold st2, step. cbn [call]. apply transact_ok with (a := tt).
    rewrite requestResultDecryption_eq. cbn zeta. by rewrite Hs, Hd. }
  assert (Hst3 : st3 = revealed p r0 rest st2).
  { unfold st3, step. cbn [call]. apply transact_ok with (a := tt).
    rewrite decryptSimulationResult_eq. cbn zeta.
    assert (Hmap : requestToPatientId_at st2 out.1 = p).
    { rewrite Hst2. unfold requestToPatientId_at. cbn.
      by rewrite lookup_insert_eq. }
    rewrite Hmap, bool_decide_eq_false_2 by done.
    replace (decryptedResults_at st2 p) with (decryptedResults_at st1 p)
      by (by rewrite Hst2).
    by rewrite Hd, Hsig, Hdec. }
  assert (Hs3 : simulationResults_at st3 p = mkSimulationResult risk drugs true).
  { rewrite Hst3, Hst2. exact Hs. }
  assert (Hd3 : decryptedResults_at st3 p = mkDecryptedResult r0 rest true).
  { rewrite Hst3. unfold decryptedResults_at, revealed. cbn.
    by rewrite lookup_insert_eq. }
  split_and!.
  - unfold getDecryptedSimulationResult. mrun. by rewrite Hd3.
  - unfold getEncryptedSimulationResult. mrun. by rewrite Hs3.
  - rewrite requestResultDecryption_eq. cbn zeta. by rewrite Hs3, Hd3.
Qed.

(** X15. A stale request id reveals a newer result. The callback ties a
    request id to a patient, not to the ciphertexts the request was made
    for: when a request id maps to a patient other than 0 and a new
    simulation result is stored for that patient, a callback with the old
    id, a proof the library accepts and a cleartext decoding to
    [r0 :: rest] succeeds, with no new decryption request, and writes
    [(r0, rest, true)] as the patient's decrypted result. *)
Theorem stale_request_reveals (st : State) (r p : N) (risk : euint32)
    (drugs : list euint32) (cl pr : bytes) (r0 : N) (rest : list N) :
  let st1 := step st (StoreSimulationResult p risk drugs) in
  requestToPatientId st !! r = Some p →
  p ≠ 0%N →
  FHE_checkSignatures (fheStore st1) r cl pr = true →
  abi_decode_uint32s cl = Some (r0 :: rest) →
  decryptSimulationResult r cl pr st1 = Ok tt (revealed p r0 rest st1)
  ∧ decryptedResults_at (step st1 (DecryptSimulationResult r cl pr)) p
    = mkDecryptedResult r0 rest true.
Proof.
  intros st1 Hr Hp Hsig Hdec.
  destruct (after_store st p risk drugs) as [_ Hd]. fold st1 in Hd.
  assert (Hok : decryptSimulationResult r cl pr st1
                = Ok tt (revealed p r0 rest st1)).
  { rewrite decryptSimulationResult_eq. cbn zeta.
    assert (Hmap : requestToPatientId_at st1 r = p).
    { unfold requestToPatientId_at.
      change (requestToPatientId st1) with (requestToPatientId st).
      by rewrite Hr. }
    by rewrite Hmap, bool_decide_eq_false_2, Hd, Hsig, Hdec. }
  split; [done|]. unfold step. cbn [call].
  rewrite (transact_ok _ _ _ _ Hok).
  unfold decryptedResults_at, revealed. cbn. by rewrite lookup_insert_eq.
Qed.

End Proofs.

Import Plain Sample.
#[local] Existing Instances plainFHE plainABI.

Lemma shown_reachable : reachable shown.
Proof.
  exists 0%N, history. unfold shown, requested, simulated.
  by rewrite <- !run_snoc.
Qed.

Lemma unknown_patient_reverts_witness :
  requestSimulation 8 simulated = Fail (Revert "Patient data not found")
  ∧ predictDiseaseRisk 8 simulated = Fail (Revert "Patient data not found")
  ∧ predictDrugResponse 8 0 simulated
    = Fail (Revert "Patient data not found")
  ∧ step simulated (RequestSimulation 8) = simulated.
Proof. apply (unknown_patient_reverts simulated 8 0). by_eval. Defined.

Lemma prediction_of_empty_vectors_witness :
  predictDiseaseRisk 7 unmodelled = Ok 0%N unmodelled
  ∧ predictDrugResponse 7 1 unmodelled = Ok 2%N unmodelled.
Proof.
  apply (prediction_of_empty_vectors unmodelled 7 1); [reflexivity|].
  left. reflexivity.
Defined.

Lemma predictions_ignore_cellular_and_organ_witness :
  predictDiseaseRisk 7 (step simulated (UpdateCellularModel [9%N]))
  = Ok 80%N (step simulated (UpdateCellularModel [9%N]))
  ∧ predictDrugResponse 7 1 (step simulated (UpdateCellularModel [9%N]))
    = Ok 82%N (step simulated (UpdateCellularModel [9%N])).
Proof.
  apply (predictions_ignore_cellular_and_organ simulated 7 1 80%N 82%N).
  - by_eval.
  - by_eval.
  - left. by exists [9%N].
Defined.

Lemma patientId_is_key_witness : patientId healthRecord7 = 7%N.
Proof.
  apply (patientId_is_key shown 7); [apply shown_reachable | by_eval].
Defined.

Lemma revealed_implies_complete_witness :
  isComplete (simulationResults_at shown 7) = true.
Proof.
  apply (proj2 (revealed_implies_complete shown shown_reachable) 7%N).
  by_eval.
Defined.

Lemma log_tells_state_witness :
  DataSubmitted 7 100 ∈ events shown
  ∧ SimulationCompleted 7 ∈ events shown
  ∧ ResultRevealed 7 ∈ events shown.
Proof.
  destruct (log_tells_state shown shown_reachable) as (Hd & _ & Hc & Hr).
  split_and!.
  - apply (Hd 7%N healthRecord7). by_eval.
  - apply Hc. by_eval.
  - apply Hr. by_eval.
Defined.

Lemma empty_cleartext_panics_witness :
  decryptSimulationResult 0 noCleartexts noCleartexts requested
  = Fail (Panic PANIC_INDEX)
  ∧ step requested (DecryptSimulationResult 0 noCleartexts noCleartexts)
    = requested.
Proof.
  apply (empty_cleartext_panics requested 0 noCleartexts noCleartexts).
  - assert (Hmap : requestToPatientId_at requested 0 = 7%N) by by_eval.
    by rewrite Hmap.
  - by_eval.
  - by_eval.
  - by_eval.
Defined.

Lemma request_can_be_repeated_witness :
  ∃ st2,
    requestResultDecryption 7 requested = Ok tt st2
    ∧ ∀ r1 r2, issuedId simulated 7 = Some r1 →
               issuedId requested 7 = Some r2 →
               r1 ≠ r2 →
               requestToPatientId st2 !! r1 = Some 7%N
               ∧ requestToPatientId st2 !! r2 = Some 7%N.
Proof. apply (request_can_be_repeated simulated requested 7). by_eval. Defined.

Lemma store_request_reveal_witness :
  let st1 := step fresh (StoreSimulationResult 7 11%N [12; 13]%N) in
  let st2 := step st1 (RequestResultDecryption 7) in
  let st3 :=
    step st2 (DecryptSimulationResult 0 cleartexts567 cleartexts567) in
  getDecryptedSimulationResult 7 st3 = Ok (5%N, [6; 7]%N, true) st3
  ∧ getEncryptedSimulationResult 7 st3 = Ok (11%N, [12; 13]%N) st3
  ∧ requestResultDecryption 7 st3 = Fail (Revert "Already revealed").
Proof.
  apply (store_request_reveal fresh 7 11%N [12; 13]%N
           cleartexts567 cleartexts567 5 [6; 7]%N).
  - done.
  - by_eval.
  - by_eval.
Defined.

Lemma stale_request_reveals_witness :
  decryptedResults_at
    (step (step shown (StoreSimulationResult 7 11%N [12; 13]%N))
       (DecryptSimulationResult 0 cleartexts89 cleartexts89)) 7
  = mkDecryptedResult 8 [9]%N true.
Proof.
  apply (stale_request_reveals shown 0 7 11%N [12; 13]%N
           cleartexts89 cleartexts89 8 [9]%N).
  - by_eval.
  - done.
  - by_eval.
  - by_eval.
Defined.

End PrecisionMedTwinMore.

(** ** Further properties of the twin store *)

Module AppMore.
Import App AppSpec.

Section Proofs.

Context `{platform : Platform, runtime : Runtime}.

Lemma nonempty_tests (b : bytes) :
  b ≠ [] →
  bool_decide (length b = 0) = false ∧ bool_decide (0 < length b) = true.
Proof.
  intros Hb. split.
  - apply bool_decide_eq_false_2. by destruct b.
  - apply bool_decide_eq_true_2. destruct b; [done|cbn; lia].
Qed.

Lemma getData_insert (store : gmap string bytes) key b :
  getData key (<[key := b]> store) = b.
Proof. unfold getData. by rewrite lookup_insert_eq. Qed.

Lemma activateTwin_ok (env : Env) twinId (store : gmap string bytes) b v :
  provider env = true → contractWithSigner env = true →
  getData (twinKey twinId) store = b → b ≠ [] → decode b = Some v →
  activateTwin env twinId store
  = (<[twinKey twinId :=
        encode (JObj (<["status" := JStr "active"]> (spread v)))]> store,
     Done).
Proof.
  intros Hp Hc Hk Hb Hv. unfold activateTwin. rewrite Hp, Hc. cbn [negb].
  cbv zeta. rewrite Hk, Hv. by destruct (nonempty_tests b Hb) as [-> _].
Qed.

Lemma archiveTwin_ok (env : Env) twinId (store : gmap string bytes) b v :
  provider env = true → contractWithSigner env = true →
  getData (twinKey twinId) store = b → b ≠ [] → decode b = Some v →
  archiveTwin env twinId store
  = (<[twinKey twinId :=
        encode (JObj (<["status" := JStr "archived"]> (spread v)))]> store,
     Done).
Proof.
  intros Hp Hc Hk Hb Hv. unfold archiveTwin. rewrite Hp, Hc. cbn [negb].
  cbv zeta. rewrite Hk, Hv. by destruct (nonempty_tests b Hb) as [-> _].
Qed.

(** X16. Activating twice is activating once. When a stored twin parses
    to an object and the activated record is read back as written, a
    second [activateTwin] succeeds and leaves the store exactly as the
    first one left it. *)
Theorem activateTwin_idempotent (env : Env) (twinId : string)
    (store : gmap string bytes) (b : bytes) (fields : gmap string json) :
  let active := <["status" := JStr "active"]> fields in
  let once := (activateTwin env twinId store).1 in
  provider env = true → contractWithSigner env = true →
  getData (twinKey twinId) store = b → b ≠ [] →
  decode b = Some (JObj fields) →
  encode (JObj active) ≠ [] →
  decode (encode (JObj active)) = Some (JObj active) →
  getData (twinKey twinId) once = encode (JObj active)
  ∧ activateTwin env twinId once = (once, Done).
Proof.
  intros active once Hp Hc Hk Hb Hv Hne Hrt.
  assert (Honce : once = <[twinKey twinId := encode (JObj active)]> store).
  { unfold once. by rewrite (activateTwin_ok env twinId store b _ Hp Hc Hk Hb Hv). }
  assert (Hlook : getData (twinKey twinId) once = encode (JObj active))
    by (by rewrite Honce, getData_insert).
  split; [done|].
  rewrite (activateTwin_ok env twinId once _ _ Hp Hc Hlook Hne Hrt).
  cbn [spread]. unfold active at 1. rewrite insert_insert_eq.
  fold active. by rewrite Honce, insert_insert_eq.
Qed.

(** X17. The last status change wins. Nothing orders the two
    transitions: an archived twin can be activated and an active one
    archived, and, when the intermediate record is read back as written,
    the store after both is the store after the later one alone. *)
Theorem last_status_change_wins (env : Env) (twinId : string)
    (store : gmap string bytes) (b : bytes) (fields : gmap string json) :
  let active := <["status" := JStr "active"]> fields in
  let archived := <["status" := JStr "archived"]> fields in
  provider env = true → contractWithSigner env = true →
  getData (twinKey twinId) store = b → b ≠ [] →
  decode b = Some (JObj fields) →
  encode (JObj active) ≠ [] →
  decode (encode (JObj active)) = Some (JObj active) →
  encode (JObj archived) ≠ [] →
  decode (encode (JObj archived)) = Some (JObj archived) →
  activateTwin env twinId (archiveTwin env twinId store).1
  = activateTwin env twinId store
  ∧ archiveTwin env twinId (activateTwin env twinId store).1
    = archiveTwin env twinId store
  ∧ (activateTwin env twinId store).2 = Done
  ∧ (archiveTwin env twinId store).2 = Done.
Proof.
  intros active archived Hp Hc Hk Hb Hv Hne1 Hrt1 Hne2 Hrt2.
  rewrite (activateTwin_ok env twinId store b _ Hp Hc Hk Hb Hv).
  rewrite (archiveTwin_ok env twinId store b _ Hp Hc Hk Hb Hv).
  cbn [fst snd spread]. fold active archived. split_and!; try done.
  - rewrite (activateTwin_ok env twinId _ (encode (JObj archived))
               (JObj archived) Hp Hc ltac:(by rewrite getData_insert)
               Hne2 Hrt2).
    cbn [spread]. unfold archived. by rewrite !insert_insert_eq.
  - rewrite (archiveTwin_ok env twinId _ (encode (JObj active))
               (JObj active) Hp Hc ltac:(by rewrite getData_insert)
               Hne1 Hrt1).
    cbn [spread]. unfold active. by rewrite !insert_insert_eq.
Qed.

(** X18. What a status change leaves alone. [activateTwin] and
    [archiveTwin] never add or remove a key and never write a key other
    than the twin's own; whenever they do not report success the store is
    unchanged, and for an id with no stored blob, or with an empty one,
    they report "Twin not found". *)
Theorem status_change_frame (env : Env) (twinId : string)
    (store : gmap string bytes) :
  let act := activateTwin env twinId store in
  let arc := archiveTwin env twinId store in
  dom act.1 = dom store ∧ dom arc.1 = dom store
  ∧ (∀ key, key ≠ twinKey twinId →
       act.1 !! key = store !! key ∧ arc.1 !! key = store !! key)
  ∧ (act.2 ≠ Done → act.1 = store)
  ∧ (arc.2 ≠ Done → arc.1 = store)
  ∧ (provider env = true → contractWithSigner env = true →
     getData (twinKey twinId) store = [] →
     act = (store, Thrown "Twin not found")
     ∧ arc = (store, Thrown "Twin not found")).
Proof.
  intros act arc. unfold act, arc, activateTwin, archiveTwin.
  destruct (provider env); cbn [negb]; [|by split_and!].
  destruct (contractWithSigner env); cbn [negb]; [|by split_and!].
  unfold getData.
  destruct (store !! twinKey twinId) as [b|] eqn:Hk;
    cbn [default from_option Datatypes.id].
  - destruct b as [|x b]; cbn [length].
    { rewrite bool_decide_eq_true_2 by done. by split_and!. }
    rewrite bool_decide_eq_false_2 by done.
    assert (Hdom : ∀ y, dom (<[twinKey twinId := y]> store) = dom store).
    { intros y. rewrite dom_insert_L.
      assert (twinKey twinId ∈ dom store) by (apply elem_of_dom; eauto).
      apply set_eq. intros k. rewrite elem_of_union, elem_of_singleton.
      split; [intros [->|]; done | by right]. }
    destruct (decode (x :: b)); cbn [fst snd].
    + unfold setData. rewrite !Hdom. split_and!; try done.
      intros key Hkey. by rewrite !lookup_insert_ne.
    + by split_and!.
  - rewrite bool_decide_eq_true_2 by done. by split_and!.
Qed.

(** *** Creating a twin *)

(** The index that [submitTwin] starts from: what the stored bytes parse
    to, and the empty array when there are none or they do not parse. *)
Lemma submitTwin_eq (env : Env) (d : NewTwinData)
    (store : gmap string bytes) :
  provider env = true → contractWithSigner env = true →
  let twinId := makeTwinId env in
  let store1 := <[twinKey twinId := encode (JObj (twinData env d))]> store in
  let keysBytes := getData "twin_keys" store in
  let keys := if bool_decide (0 < length keysBytes)
              then default (JArr []) (decode keysBytes) else JArr [] in
  submitTwin env d store =
    match push keys twinId with
    | Some keys => (<["twin_keys" := encode keys]> store1, Done)
    | None => (store1, Thrown "keys.push is not a function")
    end.
Proof.
  intros Hp Hc twinId store1 keysBytes keys.
  unfold submitTwin. rewrite Hp, Hc. cbn [negb]. cbv zeta.
  unfold setData.
  replace (getData "twin_keys" (<[twinKey (makeTwinId env) := _]> store))
    with (getData "twin_keys" store); [done|].
  unfold getData.
  by rewrite lookup_insert_ne by apply twinKey_not_index.
Qed.

Lemma submitTwin_appends_to_index_aux (env : Env) (d : NewTwinData)
    (store : gmap string bytes) (l : list json) :
  provider env = true → contractWithSigner env = true →
  (getData "twin_keys" store = [] ∧ l = [])
  ∨ (getData "twin_keys" store ≠ []
     ∧ decode (getData "twin_keys" store) = Some (JArr l)) →
  submitTwin env d store
  = (<["twin_keys" := encode (JArr (l ++ [JStr (makeTwinId env)]))]>
       (<[twinKey (makeTwinId env) := encode (JObj (twinData env d))]> store),
     Done).
Proof.
  intros Hp Hc Hidx. rewrite submitTwin_eq by done. cbv zeta.
  destruct Hidx as [[-> ->] | [Hne ->]]; [done|].
  rewrite bool_decide_eq_true_2; [done|].
  destruct (getData "twin_keys" store); [done | cbn; lia].
Qed.

(** X19. The index grows at its end. With a wallet and a contract,
    [submitTwin] on a store whose index parses to an array, or has no
    index yet, writes the twin under its key and rewrites the index as
    the old array with the new id appended, the earlier ids kept in
    order. *)
Theorem submitTwin_appends_to_index (env : Env) (d : NewTwinData)
    (store : gmap string bytes) (l : list json) :
  let twinId := makeTwinId env in
  provider env = true → contractWithSigner env = true →
  (getData "twin_keys" store = [] ∧ l = [])
  ∨ (getData "twin_keys" store ≠ []
     ∧ decode (getData "twin_keys" store) = Some (JArr l)) →
  submitTwin env d store
  = (<["twin_keys" := encode (JArr (l ++ [JStr twinId]))]>
       (<[twinKey twinId := encode (JObj (twinData env d))]> store),
     Done)
  ∧ (submitTwin env d store).1 !! "twin_keys"
    = Some (encode (JArr (l ++ [JStr twinId])))
  ∧ (submitTwin env d store).1 !! twinKey twinId
    = Some (encode (JObj (twinData env d))).
Proof.
  intros twinId Hp Hc Hidx.
  rewrite (submitTwin_appends_to_index_aux env d store l Hp Hc Hidx).
  cbn [fst]. split_and!; [done | by rewrite lookup_insert_eq |].
  rewrite lookup_insert_ne by (apply not_eq_sym, twinKey_not_index).
  by rewrite lookup_insert_eq.
Qed.

(** X20. A damaged index. When the stored index is not valid JSON,
    [submitTwin] starts over from the empty list: the new index holds the
    new id alone and the earlier ids are gone from it. When the index
    parses to something that is not an array, [submitTwin] throws after
    the twin is written: the twin's blob is stored, and the index is left
    as it was, without the new id. *)
Theorem submitTwin_damaged_index (env : Env) (d : NewTwinData)
    (store : gmap string bytes) :
  let twinId := makeTwinId env in
  let store1 := <[twinKey twinId := encode (JObj (twinData env d))]> store in
  provider env = true → contractWithSigner env = true →
  getData "twin_keys" store ≠ [] →
  (decode (getData "twin_keys" store) = None →
     submitTwin env d store
     = (<["twin_keys" := encode (JArr [JStr twinId])]> store1, Done))
  ∧ (∀ v, decode (getData "twin_keys" store) = Some v →
          (∀ l, v ≠ JArr l) →
          (∃ message, submitTwin env d store = (store1, Thrown message))
          ∧ (submitTwin env d store).1 !! twinKey twinId
            = Some (encode (JObj (twinData env d)))
          ∧ (submitTwin env d store).1 !! "twin_keys"
            = store !! "twin_keys").
Proof.
  intros twinId store1 Hp Hc Hne. rewrite submitTwin_eq by done. cbv zeta.
  rewrite bool_decide_eq_true_2;
    last by (destruct (getData "twin_keys" store); [done | cbn; lia]).
  split.
  - by intros ->.
  - intros v -> Hv. cbn [default from_option Datatypes.id].
    destruct v; cbn [push fst]; try (by destruct (Hv l)).
    all: unfold store1; split_and!; [by eauto | by rewrite lookup_insert_eq |].
    all: by rewrite lookup_insert_ne by apply twinKey_not_index.
Qed.

(** X21. What [submitTwin] writes. It writes the twin's key and the
    index key and no other; without a wallet it only alerts, and without
    a contract it throws, the store unchanged either way. *)
Theorem submitTwin_frame (env : Env) (d : NewTwinData)
    (store : gmap string bytes) :
  (∀ key, key ≠ twinKey (makeTwinId env) → key ≠ "twin_keys" →
          (submitTwin env d store).1 !! key = store !! key)
  ∧ (provider env = false → submitTwin env d store = (store, Alerted))
  ∧ (provider env = true → contractWithSigner env = false →
     ∃ message, submitTwin env d store = (store, Thrown message)).
Proof.
  split_and!.
  - intros key Hk1 Hk2. unfold submitTwin.
    destruct (provider env); [|done].
    destruct (contractWithSigner env); [|done]. cbn [negb]. cbv zeta.
    destruct (push _ _); cbn [fst]; unfold setData;
      by rewrite !lookup_insert_ne.
  - intros Hp. unfold submitTwin. by rewrite Hp.
  - intros Hp Hc. unfold submitTwin. rewrite Hp, Hc. by eauto.
Qed.

(** *** Listing the twins *)

Lemma twinKey_inj (a b : string) : twinKey a = twinKey b → a = b.
Proof. unfold twinKey. cbn. by intros [=]. Qed.

Lemma loadEntry_same_blob (store store' : gmap string bytes) (key : json) :
  getData (twinKey (ToString key)) store'
  = getData (twinKey (ToString key)) store →
  loadEntry store' key = loadEntry store key.
Proof. intros Hk. unfold loadEntry. by rewrite Hk. Qed.

Lemma length_omap_le {A B} (f : A → option B) (l : list A) :
  length (omap f l) ≤ length l.
Proof.
  induction l as [|x l IH]; [done|]. cbn. destruct (f x); cbn; lia.
Qed.

Lemma loadTwins_eq (env : ReadEnv) (store : gmap string bytes)
    (twins : list DigitalTwin) (b : bytes) (l : list json) :
  contractReadOnly env = true → isAvailable env = true →
  getData "twin_keys" store = b → b ≠ [] → decode b = Some (JArr l) →
  loadTwins env store twins
  = sortByTimestampDesc (omap (loadEntry store) l).
Proof.
  intros Hr Ha Hk Hb Hl. unfold loadTwins. rewrite Hr, Ha. cbn [negb].
  cbv zeta. rewrite Hk, Hl. rewrite bool_decide_eq_true_2; [done|].
  destruct b; [done | cbn; lia].
Qed.

(** X22. A new twin shows up in the listing. After a [submitTwin] that
    appends to an index of ids other than the new one (and other than
    "keys", whose key is the index itself), [loadTwins] lists, up to the
    order the sort gives, the twins it listed before and one more: the
    new id with the submitted data, timestamp, owner and scale, and with
    status "pending". The encoded record and the encoded index are
    assumed to be read back as written, and the sort to permute. *)
Theorem loadTwins_after_submitTwin (env : Env) (renv : ReadEnv)
    (d : NewTwinData) (store : gmap string bytes) (b : bytes)
    (l : list json) (twins : list DigitalTwin) :
  let twinId := makeTwinId env in
  let store1 := (submitTwin env d store).1 in
  let entry :=
    mkDigitalTwin (JStr twinId)
      (Some (JStr ("FHE-" +:+ btoa (JSON_stringify (newTwinJson d)))))
      (Some (JNum (Z.of_N (Date_now env / 1000))))
      (Some (JStr (account env)))
      (Some (JStr (scale d)))
      (JStr "pending") in
  provider env = true → contractWithSigner env = true →
  contractReadOnly renv = true → isAvailable renv = true →
  getData "twin_keys" store = b → b ≠ [] → decode b = Some (JArr l) →
  Forall (λ k, ToString k ≠ twinId ∧ ToString k ≠ "keys") l →
  ToString (JStr twinId) = twinId →
  (∀ ts, sortByTimestampDesc ts ≡ₚ ts) →
  encode (JObj (twinData env d)) ≠ [] →
  decode (encode (JObj (twinData env d))) = Some (JObj (twinData env d)) →
  encode (JArr (l ++ [JStr twinId])) ≠ [] →
  decode (encode (JArr (l ++ [JStr twinId])))
  = Some (JArr (l ++ [JStr twinId])) →
  loadTwins renv store1 twins ≡ₚ loadTwins renv store twins ++ [entry].
Proof.
  intros twinId store1 entry Hp Hc Hr Ha Hk Hb Hl Hfresh Hstr Hsort
    Hne Hrt Hne' Hrt'.
  assert (Hstore1 : store1
    = <["twin_keys" := encode (JArr (l ++ [JStr twinId]))]>
        (<[twinKey twinId := encode (JObj (twinData env d))]> store)).
  { unfold store1. rewrite (submitTwin_appends_to_index_aux env d store l);
      [done..|]. right. by rewrite Hk. }
  rewrite (loadTwins_eq renv store twins b l) by done.
  rewrite (loadTwins_eq renv store1 twins
             (encode (JArr (l ++ [JStr twinId]))) (l ++ [JStr twinId]));
    [|done|done| |done|done]; last first.
  { unfold getData. by rewrite Hstore1, lookup_insert_eq. }
  rewrite !Hsort, omap_app.
  assert (Hsame : ∀ k, ToString k ≠ twinId → ToString k ≠ "keys" →
                       loadEntry store1 k = loadEntry store k).
  { intros k Hk1 Hk2. apply loadEntry_same_blob.
    unfold getData. rewrite Hstore1.
    rewrite lookup_insert_ne; last first.
    { intros Heq. apply (twinKey_inj "keys") in Heq. congruence. }
    rewrite lookup_insert_ne; [done|].
    intros Heq. apply twinKey_inj in Heq. congruence. }
  assert (Hold : omap (loadEntry store1) l = omap (loadEntry store) l).
  { clear -Hfresh Hsame.
    induction Hfresh as [|k ks [Hk1 Hk2] _ IH]; [done|].
    cbn. by rewrite IH, Hsame. }
  assert (Hnew : loadEntry store1 (JStr twinId) = Some entry).
  { unfold loadEntry. rewrite Hstr.
    assert (Hblob : getData (twinKey twinId) store1
                    = encode (JObj (twinData env d))).
    { unfold getData. rewrite Hstore1.
      rewrite lookup_insert_ne by (apply not_eq_sym, twinKey_not_index).
      by rewrite lookup_insert_eq. }
    rewrite Hblob, Hrt. by destruct (nonempty_tests _ Hne) as [_ ->]. }
  rewrite Hold. cbn. by rewrite Hnew.
Qed.


Lemma loadEntry_shape (store : gmap string bytes) (k : json)
    (t : DigitalTwin) :
  loadEntry store k = Some t →
  ∃ da ts ow sc st, t = mkDigitalTwin k da ts ow sc (orPending st).
Proof.
  unfold loadEntry. destruct (bool_decide _); [|done].
  destruct (decode _) as [v|]; [|done].
  intros H.
  destruct v; cbn [mbind option_bind property] in H; try done;
    injection H as <-.
  1-4: by exists None, None, None, None, None.
  by exists (fields !! "data"), (fields !! "timestamp"), (fields !! "owner"),
    (fields !! "scale"), (fields !! "status").
Qed.

(** X24. What [loadTwins] does with a missing contract or a bad index.
    Without a read-only contract, or when the contract reports itself
    unavailable, the listing is left as it was; so it is when the index
    parses to a value that cannot be iterated. With no index, an empty
    one or one that does not parse, the listing becomes empty. With an
    index that parses to an array, there are at most as many twins as
    ids, every listed twin carries an id of the index, and its status is
    never falsy. The sort is assumed to permute. *)
Theorem loadTwins_edges (renv : ReadEnv) (store : gmap string bytes)
    (twins : list DigitalTwin) :
  (∀ ts, sortByTimestampDesc ts ≡ₚ ts) →
  (contractReadOnly renv = false ∨ isAvailable renv = false →
     loadTwins renv store twins = twins)
  ∧ (contractReadOnly renv = true → isAvailable renv = true →
     (getData "twin_keys" store = []
      ∨ decode (getData "twin_keys" store) = None →
        loadTwins renv store twins = [])
     ∧ (∀ v, getData "twin_keys" store ≠ [] →
             decode (getData "twin_keys" store) = Some v →
             iterate v = None →
             loadTwins renv store twins = twins)
     ∧ (∀ l, getData "twin_keys" store ≠ [] →
             decode (getData "twin_keys" store) = Some (JArr l) →
             length (loadTwins renv store twins) ≤ length l
             ∧ ∀ t, t ∈ loadTwins renv store twins →
                    id t ∈ l ∧ truthy (status t) = true)).
Proof.
  intros Hsort. split.
  - intros [Hr | Ha]; unfold loadTwins.
    + by rewrite Hr.
    + rewrite Ha. by destruct (contractReadOnly renv).
  - intros Hr Ha. unfold loadTwins. rewrite Hr, Ha. cbn [negb]. cbv zeta.
    split_and!.
    + intros Hidx.
      assert (Hkeys :
        (if bool_decide (0 < length (getData "twin_keys" store))
         then default (JArr []) (decode (getData "twin_keys" store))
         else JArr []) = JArr []).
      { destruct Hidx as [Hidx | Hidx]; rewrite Hidx; [done|].
        by destruct (bool_decide _). }
      rewrite Hkeys. cbn [iterate omap]. apply Permutation_nil_r, Hsort.
    + intros v Hne Hv Hit.
      destruct (nonempty_tests _ Hne) as [_ ->]. rewrite Hv.
      cbn [default from_option Datatypes.id]. by rewrite Hit.
    + intros l Hne Hl.
      destruct (nonempty_tests _ Hne) as [_ ->]. rewrite Hl.
      cbn [default from_option Datatypes.id iterate]. split.
      * rewrite Hsort. apply length_omap_le.
      * intros t Ht. rewrite Hsort in Ht.
        apply list_elem_of_omap in Ht as (k & Hk & Hload).
        apply loadEntry_shape in Hload as (da & ts & ow & sc & st & ->).
        cbn. split; [done|].
        unfold orPending. destruct st as [st|]; [|done].
        by destruct (truthy st) eqn:Hst.
Qed.

(** *** Searching and counting *)



Lemma countStatus_cons (s : string) (t : DigitalTwin)
    (ts : list DigitalTwin) :
  countStatus s (t :: ts)
  = (if isString (status t) s then 1 else 0) + countStatus s ts.
Proof.
  unfold countStatus. rewrite filter_cons.
  by destruct (isString (status t) s).
Qed.

(** X26. The status counters. The active, pending and archived counts
    never add up to more than the number of twins, and they add up to it
    exactly when every twin's status is one of the three strings. *)
Theorem status_counts (twins : list DigitalTwin) :
  activeCount twins + pendingCount twins + archivedCount twins
  ≤ length twins
  ∧ (activeCount twins + pendingCount twins + archivedCount twins
     = length twins
     ↔ Forall (λ t, isString (status t) "active"
                    || isString (status t) "pending"
                    || isString (status t) "archived") twins).
Proof.
  unfold activeCount, pendingCount, archivedCount.
  induction twins as [|t ts [IHle IHeq]].
  { split; [done|]. split; [by constructor | done]. }
  rewrite !countStatus_cons, Forall_cons. cbn [length].
  assert (Hex : ∀ v : json,
    (if isString v "active" then 1 else 0)
    + (if isString v "pending" then 1 else 0)
    + (if isString v "archived" then 1 else 0)
    = if isString v "active" || isString v "pending" || isString v "archived"
      then 1 else 0).
  { intros [| | |s| |]; try done. cbn.
    destruct (bool_decide (s = "active")) eqn:Ha.
    - apply bool_decide_eq_true in Ha. by subst s.
    - destruct (bool_decide (s = "pending")) eqn:Hp; [|by case_bool_decide].
      apply bool_decide_eq_true in Hp. by subst s. }
  specialize (Hex (status t)).
  destruct (isString (status t) "active" || isString (status t) "pending"
            || isString (status t) "archived"); split; try lia.
  - rewrite <- IHeq. split; [intros H; split; [done|lia] | intros [_ H]; lia].
  - split; [lia | by intros [[] _]].
Qed.

End Proofs.

Import PlainJS Sample.
#[local] Existing Instances plainPlatform plainRuntime.

Ltac nonempty := let H := fresh in intros H; vm_compute in H; discriminate.

Lemma activateTwin_idempotent_witness :
  let active := <["status" := JStr "active"]> (twinData browser geneTwin) in
  let once := (activateTwin browser firstId oneTwin).1 in
  getData (twinKey firstId) once = encode (JObj active)
  ∧ activateTwin browser firstId once = (once, Done).
Proof.
  apply (activateTwin_idempotent browser firstId oneTwin
           (getData (twinKey firstId) oneTwin) (twinData browser geneTwin)).
  - reflexivity.
  - reflexivity.
  - reflexivity.
  - nonempty.
  - by_eval.
  - nonempty.
  - by_eval.
Defined.

Lemma last_status_change_wins_witness :
  activateTwin browser firstId (archiveTwin browser firstId oneTwin).1
  = activateTwin browser firstId oneTwin
  ∧ archiveTwin browser firstId (activateTwin browser firstId oneTwin).1
    = archiveTwin browser firstId oneTwin
  ∧ (activateTwin browser firstId oneTwin).2 = Done
  ∧ (archiveTwin browser firstId oneTwin).2 = Done.
Proof.
  apply (last_status_change_wins browser firstId oneTwin
           (getData (twinKey firstId) oneTwin) (twinData browser geneTwin)).
  - reflexivity.
  - reflexivity.
  - reflexivity.
  - nonempty.
  - by_eval.
  - nonempty.
  - by_eval.
  - nonempty.
  - by_eval.
Defined.

Lemma submitTwin_appends_to_index_witness :
  let twinId := makeTwinId laterBrowser in
  submitTwin laterBrowser cellTwin oneTwin
  = (<["twin_keys" := encode (JArr ([JStr firstId] ++ [JStr twinId]))]>
       (<[twinKey twinId := encode (JObj (twinData laterBrowser cellTwin))]>
          oneTwin),
     Done)
  ∧ (submitTwin laterBrowser cellTwin oneTwin).1 !! "twin_keys"
    = Some (encode (JArr ([JStr firstId] ++ [JStr twinId])))
  ∧ (submitTwin laterBrowser cellTwin oneTwin).1 !! twinKey twinId
    = Some (encode (JObj (twinData laterBrowser cellTwin))).
Proof.
  apply (submitTwin_appends_to_index laterBrowser cellTwin oneTwin
           [JStr firstId]).
  - reflexivity.
  - reflexivity.
  - right. split; [nonempty | by_eval].
Defined.

Lemma submitTwin_damaged_index_witness :
  submitTwin browser geneTwin garbledIndex
  = (<["twin_keys" := encode (JArr [JStr firstId])]>
       (<[twinKey firstId := encode (JObj (twinData browser geneTwin))]>
          garbledIndex),
     Done)
  ∧ (submitTwin browser geneTwin objectIndex).1 !! "twin_keys"
    = objectIndex !! "twin_keys".
Proof.
  split.
  - apply (submitTwin_damaged_index browser geneTwin garbledIndex);
      [reflexivity | reflexivity | nonempty | by_eval].
  - apply (proj2 (submitTwin_damaged_index browser geneTwin objectIndex
                    eq_refl eq_refl ltac:(nonempty)) (JObj ∅)).
    + by_eval.
    + intros l. discriminate.
Defined.

Lemma loadTwins_after_submitTwin_witness :
  let twinId := makeTwinId laterBrowser in
  let store1 := (submitTwin laterBrowser cellTwin oneTwin).1 in
  let entry :=
    mkDigitalTwin (JStr twinId)
      (Some (JStr ("FHE-" +:+ btoa (JSON_stringify (newTwinJson cellTwin)))))
      (Some (JNum (Z.of_N (Date_now laterBrowser / 1000))))
      (Some (JStr (account laterBrowser)))
      (Some (JStr (scale cellTwin)))
      (JStr "pending") in
  loadTwins reader store1 [] ≡ₚ loadTwins reader oneTwin [] ++ [entry].
Proof.
  apply (loadTwins_after_submitTwin laterBrowser reader cellTwin oneTwin
           (getData "twin_keys" oneTwin) [JStr firstId] []).
  - reflexivity.
  - reflexivity.
  - reflexivity.
  - reflexivity.
  - reflexivity.
  - nonempty.
  - by_eval.
  - constructor; [|constructor]. split; nonempty.
  - reflexivity.
  - intros ts. apply merge_sort_Permutation.
  - nonempty.
  - by_eval.
  - nonempty.
  - by_eval.
Defined.


Lemma loadTwins_edges_witness :
  loadTwins reader ∅ [] = []
  ∧ loadTwins reader garbledIndex [] = []
  ∧ length (loadTwins reader oneTwin []) ≤ 1.
Proof.
  assert (Hsort : ∀ ts, sortByTimestampDesc ts ≡ₚ ts)
    by (intros ts; apply merge_sort_Permutation).
  split_and!.
  - apply (proj1 (proj2 (loadTwins_edges reader ∅ [] Hsort) eq_refl eq_refl)).
    by left.
  - apply (proj1 (proj2 (loadTwins_edges reader garbledIndex [] Hsort)
                    eq_refl eq_refl)).
    right. by_eval.
  - apply (proj2 (proj2 (proj2 (loadTwins_edges reader oneTwin [] Hsort)
                    eq_refl eq_refl)) [JStr firstId]).
    + nonempty.
    + by_eval.
Defined.

End AppMore.
